(** * GraphQueryGenerationStep.run: the generate / validate / execute retry loop

    A shallow embedding of [src/graphrag_sdk/steps/graph_query_step.py].

    The step talks to a chat session and to a graph store, both stateful, and
    to four pure helpers of [graphrag_sdk.helpers].  None of them is defined
    in the file under study, so they are the fields of a record
    [Collaborators]; the state of the chat session and of the graph store is
    one abstract [World] threaded through the calls that may change it.
    Every call made inside the [try] block may raise: a call returns a value,
    raises an instance of [Exception], which [except Exception] catches, or
    raises an exception outside [Exception] ([KeyboardInterrupt],
    [SystemExit], ...), which passes through the [try] uncaught and ends
    [run].  Logging is observational and is left out. *)

From Stdlib Require Import ZArith.
From stdpp Require Import base option list strings gmap.

Local Open Scope string_scope.
Local Open Scope list_scope.

(** ** Python values the loop handles *)

(** An exception, as far as [run] looks at it: the name of its class and
    [str(e)].  Whether [except Exception] catches it is not read off the
    name: it is told by how the call ended, [Raise] or [RaiseBase] below. *)
Record PyExn := mkExn { exn_class : string; exn_str : string }.

(** [Exception(msg)]: [str] of it is [msg]. *)
Definition Exception (msg : string) : PyExn := mkExn "Exception" msg.

(** What reading the local [error] raises when no [except] clause bound it. *)
Definition UnboundLocalError_error : PyExn :=
  mkExn "UnboundLocalError"
        "cannot access local variable 'error' where it is not associated with a value".

(** [None.format(...)], when a template was not supplied at construction. *)
Definition AttributeError_format : PyExn :=
  mkExn "AttributeError" "'NoneType' object has no attribute 'format'".

(** What [range(None)] raises at line 70. *)
Definition TypeError_range : PyExn :=
  mkExn "TypeError" "'NoneType' object cannot be interpreted as an integer".

(** The outcome of a call that may raise: a value; an exception that is an
    instance of [Exception]; or one that is not, that is an instance of
    [BaseException] only. *)
Inductive Res (A : Type) : Type :=
| Ok (a : A)
| Raise (e : PyExn)
| RaiseBase (e : PyExn).
Arguments Ok {A} a.
Arguments Raise {A} e.
Arguments RaiseBase {A} e.

(** The response object of the chat session; [run] reads its [text]. *)
Record GenerationResponse := mkResponse { text : string }.

(** The dict [extract_cypher] returns: keys are strings, a value is a string
    or Python's [None] (the inner [option]).  The outer [option] of
    [ExtractResult] is [extract_cypher] returning [None] itself. *)
Abbreviation PyDict := (gmap string (option string)).
Abbreviation ExtractResult := (option PyDict).

(** The tuple [run] returns:
    [(context, cypher, execution_time, display)]. *)
Definition RunTuple : Type :=
  (option string * option string * option Z * option string)%type.

Definition no_answer : RunTuple := (None, None, None, None).

(** ** Strings *)

Definition newline : string := String (Ascii.ascii_of_nat 10) EmptyString.

(** ["\n".join(l)] *)
Definition join_lines (l : list string) : string := String.concat newline l.

Fixpoint is_prefix (s t : string) : bool :=
  match s, t with
  | EmptyString, _ => true
  | String a s', String b t' => if Ascii.eqb a b then is_prefix s' t' else false
  | String _ _, EmptyString => false
  end.

(** [needle in hay] on two [str]. *)
Fixpoint str_in (needle hay : string) : bool :=
  is_prefix needle hay ||
  match hay with
  | EmptyString => false
  | String _ hay' => str_in needle hay'
  end.

Definition rate_limit_marker : string := "litellm.RateLimitError".

(** The f-string of line 107. *)
Definition empty_result_prompt (question : string) : string :=
  "The generated Cypher query returned an empty result set. If you are absolutely sure there is another way to formulate the query based on the ontology to answer the question, please try again. Otherwise, return the same Cypher query. The question to answer is: "
  +:+ question.

(** The f-string of line 122; [err] is [str(e)]. *)
Definition error_prompt (err question : string) : string :=
  "The previous Cypher query you generated resulted in the following error: "
  +:+ err +:+
  ". Please generate a new Cypher query that adheres to the ontology and avoids this error. The question to answer is: "
  +:+ question.

Arguments empty_result_prompt : simpl never.
Arguments error_prompt : simpl never.

(** ** The collaborators *)

(** Calls on the chat session and on the graph store, in the order made. *)
Inductive Event :=
| EvSend (prompt : string)
| EvDeleteLast
| EvQuery (query : string).

Definition is_send (ev : Event) : bool :=
  match ev with EvSend _ => true | _ => false end.
Definition is_delete (ev : Event) : bool :=
  match ev with EvDeleteLast => true | _ => false end.
Definition is_query (ev : Event) : bool :=
  match ev with EvQuery _ => true | _ => false end.

Definition count_sends (tr : list Event) : nat := length (List.filter is_send tr).
Definition count_deletes (tr : list Event) : nat := length (List.filter is_delete tr).
Definition count_queries (tr : list Event) : nat := length (List.filter is_query tr).

Section Step.

(** The state of the chat session and the graph store; the rows of a result
    set; the ontology. *)
Context {World Rows Ontology : Type}.

Record Collaborators := {
  (** [chat_session.send_message(prompt)] *)
  send_message : string -> World -> World * Res GenerationResponse;
  (** [chat_session.delete_last_message()] *)
  delete_last_message : World -> World * Res unit;
  (** [graph.query(cypher)]: [result_set] and [run_time_ms] *)
  graph_query : string -> World -> World * Res (Rows * Z);
  (** [extract_cypher(text)] *)
  extract_cypher : string -> Res ExtractResult;
  (** [validate_cypher(cypher, ontology)]: [None] or a list of messages *)
  validate_cypher : string -> Ontology -> Res (option (list string));
  (** [check_falkordb_result_set_empty(result_set)] *)
  check_falkordb_result_set_empty : Rows -> Res bool;
  (** [stringify_falkordb_response(result_set)] *)
  stringify_falkordb_response : Rows -> Res string;
  (** [template.format(k1=v1, ...)] on a [str] template *)
  str_format : string -> list (string * string) -> Res string;
}.

(** The fields [__init__] stores and [run] reads; [graph] and
    [chat_session] live in the [World]. *)
Record GraphQueryGenerationStep := {
  self_ontology : Ontology;
  self_last_answer : option string;
  self_cypher_prompt : option string;
  self_cypher_prompt_with_history : option string;
}.

(** The locals of [run] that live across iterations.  [error] is [None]
    while the name is unbound. *)
Record Locals := mkLocals {
  cypher : string;
  cypher_prompt : string;
  last_empty_query : option string;
  error : option PyExn;
}.

Record Machine := mkMachine {
  locals : Locals;
  world : World;
  trace : list Event;
}.

Definition set_cypher (c : string) (m : Machine) : Machine :=
  mkMachine (mkLocals c (cypher_prompt (locals m))
                      (last_empty_query (locals m)) (error (locals m)))
            (world m) (trace m).
Definition set_cypher_prompt (p : string) (m : Machine) : Machine :=
  mkMachine (mkLocals (cypher (locals m)) p
                      (last_empty_query (locals m)) (error (locals m)))
            (world m) (trace m).
Definition set_last_empty_query (q : string) (m : Machine) : Machine :=
  mkMachine (mkLocals (cypher (locals m)) (cypher_prompt (locals m))
                      (Some q) (error (locals m)))
            (world m) (trace m).
Definition set_error (e : PyExn) (m : Machine) : Machine :=
  mkMachine (mkLocals (cypher (locals m)) (cypher_prompt (locals m))
                      (last_empty_query (locals m)) (Some e))
            (world m) (trace m).

(** The machine once [send_message(p)] has returned in world [w], and once
    [graph.query(q)] has. *)
Definition after_send (p : string) (w : World) (m : Machine) : Machine :=
  mkMachine (locals (set_cypher_prompt p m)) w (trace m ++ [EvSend p]).
Definition after_query (q : string) (w : World) (m : Machine) : Machine :=
  mkMachine (locals (set_cypher q m)) w (trace m ++ [EvQuery q]).

(** *** The body of [try], a computation that may raise *)

Definition Try (A : Type) : Type := Machine -> Machine * Res A.

Definition ret {A} (a : A) : Try A := fun m => (m, Ok a).
Definition throw {A} (e : PyExn) : Try A := fun m => (m, Raise e).
Definition bind {A B} (c : Try A) (k : A -> Try B) : Try B :=
  fun m => match c m with
           | (m', Ok a) => k a m'
           | (m', Raise e) => (m', Raise e)
           | (m', RaiseBase e) => (m', RaiseBase e)
           end.
Definition pure_call {A} (r : Res A) : Try A := fun m => (m, r).
Definition modify (f : Machine -> Machine) : Try unit := fun m => (f m, Ok tt).
Definition read {A} (f : Locals -> A) : Try A := fun m => (m, Ok (f (locals m))).

(** A call on the chat session or the graph store: logged, and the world
    moves on whether the call returns or raises. *)
Definition world_call {A} (ev : Event) (f : World -> World * Res A) : Try A :=
  fun m => let (w, r) := f (world m) in
           (mkMachine (locals m) w (trace m ++ [ev]), r).

Local Notation "'let*' x := c 'in' k" := (bind c (fun x => k))
  (at level 10, x pattern, c at level 100, k at level 200).
Local Notation "c ;; k" := (bind c (fun _ => k))
  (at level 100, k at level 200, right associativity).

Variable env : Collaborators.
Variable self : GraphQueryGenerationStep.
Variable question : string.

(** How the [try] body ends when it does not raise. *)
Inductive Flow :=
| FReturn (t : RunTuple)
| FContinue.

(** Lines 73-77: the conditional expression picks the template by
    [self.last_answer]. *)
Definition first_prompt : Res string :=
  match self_last_answer self with
  | None =>
      match self_cypher_prompt self with
      | Some tmpl => str_format env tmpl [("question", question)]
      | None => Raise AttributeError_format
      end
  | Some ans =>
      match self_cypher_prompt_with_history self with
      | Some tmpl =>
          str_format env tmpl [("question", question); ("last_answer", ans)]
      | None => Raise AttributeError_format
      end
  end.

(** Lines 72-77. *)
Definition build_prompt : Try unit :=
  let* current := read cypher_prompt in
  if String.eqb current "" then
    let* p := pure_call first_prompt in
    modify (set_cypher_prompt p)
  else ret tt.

(** The value [cypher_prompt] has after lines 72-77 when it was [current]
    before them, or what the template call raised. *)
Definition prompt_of (current : string) : Res string :=
  if String.eqb current "" then first_prompt else Ok current.

(** Line 86: [not result or "error" in result]. *)
Definition declined (result : ExtractResult) : bool :=
  match result with
  | None => true
  | Some d => bool_decide (d = ∅) || bool_decide (is_Some (d !! "error"))
  end.

(** Line 89: ["context" not in result or result["context"] is None];
    otherwise the query of line 92. *)
Definition context_of (result : ExtractResult) : option string :=
  match result with
  | None => None
  | Some d => mjoin (d !! "context")
  end.

(** Line 115: [result["display"] if "display" in result else None]. *)
Definition display_of (result : ExtractResult) : option string :=
  match result with
  | None => None
  | Some d => mjoin (d !! "display")
  end.

(** Line 104: [cypher != last_empty_query]. *)
Definition differs (q : string) (last : option string) : bool :=
  match last with
  | None => true
  | Some q' => negb (String.eqb q q')
  end.

(** Lines 72-115.  After line 90 [cypher] is a string, so the test of
    line 98 holds and its branch is taken. *)
Definition try_body : Try Flow :=
  build_prompt ;;
  let* prompt := read cypher_prompt in
  let* response := world_call (EvSend prompt) (send_message env prompt) in
  let* result := pure_call (extract_cypher env (text response)) in
  if declined result then ret (FReturn no_answer)
  else
    match context_of result with
    | None => ret (FReturn no_answer)
    | Some q =>
        modify (set_cypher q) ;;
        let* validation_errors :=
          pure_call (validate_cypher env q (self_ontology self)) in
        match validation_errors with
        | Some errs => throw (Exception (join_lines errs))
        | None =>
            let* query_result := world_call (EvQuery q) (graph_query env q) in
            let result_set := fst query_result in
            let execution_time := snd query_result in
            let* is_empty_result :=
              pure_call (check_falkordb_result_set_empty env result_set) in
            let* last := read last_empty_query in
            if is_empty_result && differs q last then
              modify (set_last_empty_query q) ;;
              modify (set_cypher_prompt (empty_result_prompt question)) ;;
              ret FContinue
            else
              let* context :=
                pure_call (stringify_falkordb_response env result_set) in
              ret (FReturn (Some context, Some q, Some execution_time,
                            display_of result))
        end
    end.

(** *** One iteration of the [for] loop *)

Inductive Control :=
| Returned (t : RunTuple)   (* [return] left [run] *)
| NextIteration             (* [continue], or the end of the loop body *)
| Escaped (e : PyExn).      (* uncaught: outside [Exception], or raised in the [except] clause *)

(** Line 119. *)
Definition is_rate_limit (e : PyExn) : bool :=
  str_in rate_limit_marker (exn_str e).

(** Lines 116-122. *)
Definition handler (e : PyExn) (m : Machine) : Machine * Control :=
  let m1 := set_error e m in
  if is_rate_limit e then
    match world_call EvDeleteLast (delete_last_message env) m1 with
    | (m2, Ok _) => (m2, NextIteration)
    | (m2, Raise e') => (m2, Escaped e')
    | (m2, RaiseBase e') => (m2, Escaped e')
    end
  else
    (set_cypher_prompt (error_prompt (exn_str e) question) m1, NextIteration).

Definition attempt (m : Machine) : Machine * Control :=
  match try_body m with
  | (m', Ok (FReturn t)) => (m', Returned t)
  | (m', Ok FContinue) => (m', NextIteration)
  | (m', Raise e) => handler e m'
  | (m', RaiseBase e) => (m', Escaped e)
  end.

(** *** The loop and [run] *)

Inductive Outcome :=
| Result (t : RunTuple)
| Failure (e : PyExn).

(** Line 124, reached when the loop runs out. *)
Definition exhausted (m : Machine) : Outcome :=
  match error (locals m) with
  | Some e => Failure (Exception ("Failed to generate Cypher query: " +:+ exn_str e))
  | None => Failure UnboundLocalError_error
  end.

(** [n] iterations are left. *)
Fixpoint loop (n : nat) (m : Machine) : Machine * Outcome :=
  match n with
  | O => (m, exhausted m)
  | S n' =>
      match attempt m with
      | (m', Returned t) => (m', Result t)
      | (m', NextIteration) => loop n' m'
      | (m', Escaped e) => (m', Failure e)
      end
  end.

(** Lines 67-69. *)
Definition initial (w : World) : Machine :=
  mkMachine (mkLocals "" "" None None) w [].

(** [range(retries)] is empty for [retries <= 0]. *)
Definition run (retries : Z) (w : World) : Machine * Outcome :=
  loop (Z.to_nat retries) (initial w).

(** [run] with its parameter as declared, [retries: Optional[int]]: with
    [None], [range(retries)] raises a [TypeError] at line 70, outside the
    [try]. *)
Definition run_optional (retries : option Z) (w : World) : Machine * Outcome :=
  match retries with
  | Some r => run r w
  | None => (initial w, Failure TypeError_range)
  end.

(** [k] consecutive iterations, each of which caught an exception and went
    on to the next iteration; the machine they lead to. *)
Fixpoint recoveries (k : nat) (m : Machine) : option Machine :=
  match k with
  | O => Some m
  | S k' =>
      match try_body m, attempt m with
      | (_, Raise _), (m', NextIteration) => recoveries k' m'
      | _, _ => None
      end
  end.

(** The machine after [n] iterations that all went on to the next one;
    [None] when one of them returned or let an exception escape. *)
Fixpoint goes_on (n : nat) (m : Machine) : option Machine :=
  match n with
  | O => Some m
  | S n' =>
      match attempt m with
      | (m', NextIteration) => goes_on n' m'
      | _ => None
      end
  end.

(** How many of the [n] iterations allowed the loop runs from [m]. *)
Fixpoint iterations (n : nat) (m : Machine) : nat :=
  match n with
  | O => 0
  | S n' =>
      match attempt m with
      | (m', NextIteration) => S (iterations n' m')
      | _ => 1
      end
  end.

End Step.

(** ** A scripted chat session and a table-backed graph store

    Concrete collaborators on which the statements below are exercised: the
    chat session answers the [k]-th send with the [k]-th entry of a script,
    the store looks the query up in a function, the validator is a function
    of the query. *)
Module Scenario.

(** Number of sends so far, and the prompts the session still remembers. *)
Definition World : Type := (nat * list string)%type.
Definition Rows : Type := list (list string).

Definition out_of_script : PyExn := mkExn "StopIteration" "no reply left".

Definition reply_at (script : list (Res string)) (k : nat) : Res GenerationResponse :=
  match nth_error script k with
  | Some (Ok t) => Ok (mkResponse t)
  | Some (Raise e) => Raise e
  | Some (RaiseBase e) => RaiseBase e
  | None => Raise out_of_script
  end.

(** The parser: an empty text gives [None], a text starting with [ERROR]
    an error marker, a text starting with [MATCH] a query, a text starting
    with [#] a dict without a query, any other text a query with a display
    form. *)
Definition parse (t : string) : Res ExtractResult :=
  if String.eqb t "" then Ok None
  else if is_prefix "ERROR" t then Ok (Some {[ "error" := Some t ]})
  else if is_prefix "MATCH" t then Ok (Some {[ "context" := Some t ]})
  else if is_prefix "#" t then Ok (Some {[ "display" := Some t ]})
  else Ok (Some (<[ "display" := Some ("Query: " +:+ t) ]> {[ "context" := Some t ]})).

Definition render_row (r : list string) : string :=
  "[" +:+ String.concat ", " r +:+ "]".
Definition render (rows : Rows) : string :=
  "[" +:+ String.concat ", " (map render_row rows) +:+ "]".

(** A stand-in for [str.format]: the template followed by the values. *)
Definition fill (tmpl : string) (kwargs : list (string * string)) : Res string :=
  Ok (tmpl +:+ String.concat " / " (map snd kwargs)).

Definition scripted (script : list (Res string))
    (validator : string -> option (list string))
    (store : string -> Res (Rows * Z)) : @Collaborators World Rows unit :=
  {| send_message := fun p w => ((S (fst w), snd w ++ [p]), reply_at script (fst w));
     delete_last_message := fun w => ((fst w, removelast (snd w)), Ok tt);
     graph_query := fun q w => (w, store q);
     extract_cypher := parse;
     validate_cypher := fun q _ => Ok (validator q);
     check_falkordb_result_set_empty :=
       fun rows => Ok (match rows with [] => true | _ => false end);
     stringify_falkordb_response := fun rows => Ok (render rows);
     str_format := fill |}.

Definition step_fresh : @GraphQueryGenerationStep unit :=
  {| self_ontology := tt;
     self_last_answer := None;
     self_cypher_prompt := Some "Write Cypher for: ";
     self_cypher_prompt_with_history := Some "Given the last answer, write Cypher for: " |}.

Definition step_with_history : @GraphQueryGenerationStep unit :=
  {| self_ontology := tt;
     self_last_answer := Some "There are 42 people.";
     self_cypher_prompt := Some "Write Cypher for: ";
     self_cypher_prompt_with_history := Some "Given the last answer, write Cypher for: " |}.

Definition question : string := "How many people are there?".
Definition count_people : string := "MATCH (p:Person) RETURN count(p)".
Definition count_robots : string := "MATCH (r:Robot) RETURN r.name".
Definition w0 : World := (0, []).

Definition accept_all (q : string) : option (list string) := None.

(** People are counted in 5 ms; robots are looked up in 3 ms and there are
    none; any other query is refused. *)
Definition people_store (q : string) : Res (Rows * Z) :=
  if String.eqb q count_people then Ok ([["42"]], 5%Z)
  else if String.eqb q count_robots then Ok ([], 3%Z)
  else Raise (mkExn "ResponseError" "errMsg: Invalid input").

Definition throttled : PyExn :=
  mkExn "RateLimitError" "litellm.RateLimitError: Rate limit reached".
Definition timed_out : PyExn := mkExn "TimeoutError" "timed out".

(** A validator whose message quotes an offending label. *)
Definition reject_label (q : string) : option (list string) :=
  if String.eqb q count_people then None
  else Some ["Label litellm.RateLimitError not found in the ontology"].

Definition reject_robots (q : string) : option (list string) :=
  if String.eqb q count_robots
  then Some ["Label Robot not found"; "Property name not found"]
  else None.

(** The scripts the statements below are tried on. *)
Definition prompt0 : string := "Write Cypher for: How many people are there?".

Definition env_people := scripted [Ok count_people] accept_all people_store.
Definition env_noise := scripted [Ok ""] accept_all people_store.
Definition env_display := scripted [Ok "RETURN 1"] accept_all
  (fun _ => Ok ([["1"]], 2%Z)).
Definition env_invalid :=
  scripted [Ok count_robots; Ok count_people] reject_robots people_store.
Definition env_label :=
  scripted [Ok count_robots; Ok count_people] reject_label people_store.
Definition env_throttled :=
  scripted [Raise throttled; Ok count_people] accept_all people_store.
Definition env_robots :=
  scripted [Ok count_robots; Raise timed_out; Ok count_robots]
           accept_all people_store.

(** A session that is throttled on every send. *)
Definition env_always_throttled : @Collaborators World Rows unit :=
  {| send_message := fun p w => ((S (fst w), snd w ++ [p]), Raise throttled);
     delete_last_message := fun w => ((fst w, removelast (snd w)), Ok tt);
     graph_query := fun q w => (w, people_store q);
     extract_cypher := parse;
     validate_cypher := fun q _ => Ok (accept_all q);
     check_falkordb_result_set_empty :=
       fun rows => Ok (match rows with [] => true | _ => false end);
     stringify_falkordb_response := fun rows => Ok (render rows);
     str_format := fill |}.

(** A step constructed without its templates. *)
Definition step_without_templates : @GraphQueryGenerationStep unit :=
  {| self_ontology := tt;
     self_last_answer := None;
     self_cypher_prompt := None;
     self_cypher_prompt_with_history := None |}.

(** A validator that returns an empty list for the robots query. *)
Definition reject_silently (q : string) : option (list string) :=
  if String.eqb q count_robots then Some [] else None.
Definition env_silent :=
  scripted [Ok count_robots; Ok count_people] reject_silently people_store.

(** A session interrupted from the keyboard during the first send. *)
Definition interrupted : PyExn := mkExn "KeyboardInterrupt" "".
Definition env_interrupted :=
  scripted [RaiseBase interrupted; Ok count_people] accept_all people_store.

(** A store reached with a query it refuses. *)
Definition env_refused :=
  scripted [Ok "MATCH (n) RETURN m"; Ok count_people] accept_all people_store.

End Scenario.


(** * Properties *)

(** ** Substring test *)

Lemma is_prefix_app (s r : string) : is_prefix s (s +:+ r) = true.
Proof.
  induction s as [|a s IH]; simpl; [done|].
  by rewrite Ascii.eqb_refl.
Qed.

Lemma is_prefix_inv (s t : string) :
  is_prefix s t = true -> exists r, t = s +:+ r.
Proof.
  revert t. induction s as [|a s IH]; intros t H.
  - by exists t.
  - destruct t as [|b t]; simpl in H; [done|].
    destruct (Ascii.eqb_spec a b) as [->|]; [|done].
    destruct (IH _ H) as [r ->]. by exists r.
Qed.

(** [str_in] finds exactly the occurrences of the needle. *)
Lemma str_in_spec (needle hay : string) :
  str_in needle hay = true <-> exists a b, hay = a +:+ needle +:+ b.
Proof.
  split.
  - induction hay as [|c hay IH]; simpl; intros H.
    + apply orb_true_iff in H as [H|H]; [|done].
      destruct (is_prefix_inv _ _ H) as [r Hr]. by exists "", r.
    + apply orb_true_iff in H as [H|H].
      * destruct (is_prefix_inv _ _ H) as [r Hr]. by exists "", r.
      * destruct (IH H) as (a & b & ->). by exists (String c a), b.
  - intros (a & b & ->). induction a as [|c a IH].
    + simpl. destruct (needle +:+ b) eqn:E; simpl.
      * rewrite <- E. by rewrite is_prefix_app.
      * rewrite <- E. by rewrite is_prefix_app.
    + change (String c a +:+ needle +:+ b) with (String c (a +:+ needle +:+ b)).
      simpl str_in. rewrite IH. apply orb_true_r.
Qed.

Lemma str_in_middle (a needle b : string) :
  str_in needle (a +:+ needle +:+ b) = true.
Proof. apply str_in_spec. by exists a, b. Qed.

(** The repair prompt quotes the error text. *)
Lemma error_prompt_quotes (err question : string) :
  str_in err (error_prompt err question) = true.
Proof. unfold error_prompt. apply str_in_middle. Qed.

(** ** Counting events *)

Lemma count_sends_app (t1 t2 : list Event) :
  count_sends (t1 ++ t2) = count_sends t1 + count_sends t2.
Proof. unfold count_sends. by rewrite List.filter_app, length_app. Qed.

Lemma count_deletes_app (t1 t2 : list Event) :
  count_deletes (t1 ++ t2) = count_deletes t1 + count_deletes t2.
Proof. unfold count_deletes. by rewrite List.filter_app, length_app. Qed.

Lemma count_queries_app (t1 t2 : list Event) :
  count_queries (t1 ++ t2) = count_queries t1 + count_queries t2.
Proof. unfold count_queries. by rewrite List.filter_app, length_app. Qed.

(** ** The retry loop *)

Section Properties.

Context {World Rows Ontology : Type}.
Variable env : @Collaborators World Rows Ontology.
Variable self : @GraphQueryGenerationStep Ontology.
Variable question : string.

Abbreviation Machine := (@Machine World).
Abbreviation attempt := (attempt env self question).
Abbreviation try_body := (try_body env self question).
Abbreviation build_prompt := (build_prompt env self question).
Abbreviation prompt_of := (prompt_of env self question).
Abbreviation first_prompt := (first_prompt env self question).
Abbreviation handler := (handler env question).
Abbreviation loop := (loop env self question).
Abbreviation run := (run env self question).
Abbreviation recoveries := (recoveries env self question).

(** *** Building the prompt *)

Lemma set_cypher_prompt_same (m : Machine) :
  set_cypher_prompt (cypher_prompt (locals m)) m = m.
Proof. by destruct m as [[] ? ?]. Qed.

Lemma build_prompt_spec (m : Machine) :
  build_prompt m =
  match prompt_of (cypher_prompt (locals m)) with
  | Ok p => (set_cypher_prompt p m, Ok tt)
  | Raise e => (m, Raise e)
  | RaiseBase e => (m, RaiseBase e)
  end.
Proof.
  unfold build_prompt, prompt_of, bind, read, pure_call, modify, ret.
  destruct (String.eqb _ _); [by destruct first_prompt|].
  by rewrite set_cypher_prompt_same.
Qed.

(** A prompt that was built is not built again. *)
Lemma prompt_of_idem (c p : string) :
  prompt_of c = Ok p -> prompt_of p = Ok p.
Proof.
  unfold prompt_of. intros H.
  destruct (String.eqb_spec p ""); [|done].
  destruct (String.eqb_spec c ""); congruence.
Qed.

Lemma prompt_of_error_prompt (err : string) :
  prompt_of (error_prompt err question) = Ok (error_prompt err question).
Proof. reflexivity. Qed.

Lemma prompt_of_empty_result_prompt :
  prompt_of (empty_result_prompt question) = Ok (empty_result_prompt question).
Proof. reflexivity. Qed.

(** *** Case analysis of one iteration *)

Ltac unfold_attempt :=
  unfold attempt, try_body, handler, bind, read, pure_call, modify,
         world_call, ret, throw;
  rewrite build_prompt_spec.

(** Case analysis on the next collaborator call or test the goal shows. *)
Ltac case_call :=
  match goal with
  | |- context [prompt_of ?x] =>
      destruct (prompt_of x) as [?p|?e|?e] eqn:?Hprompt
  | |- context [send_message env ?x ?y] =>
      destruct (send_message env x y) as [?w [?resp|?e|?e]] eqn:?Hsend
  | |- context [extract_cypher env ?x] =>
      destruct (extract_cypher env x) as [?result|?e|?e] eqn:?Hextract
  | |- context [declined ?x] =>
      destruct (declined x) eqn:?Hdeclined
  | |- context [context_of ?x] =>
      destruct (context_of x) as [?q|] eqn:?Hcontext
  | |- context [validate_cypher env ?x ?y] =>
      destruct (validate_cypher env x y) as [[?errs|]|?e|?e] eqn:?Hvalidate
  | |- context [graph_query env ?x ?y] =>
      destruct (graph_query env x y) as [?w [[?rows ?time]|?e|?e]] eqn:?Hquery
  | |- context [check_falkordb_result_set_empty env ?x] =>
      destruct (check_falkordb_result_set_empty env x) as [[|]|?e|?e] eqn:?Hempty
  | |- context [differs ?x ?y] =>
      destruct (differs x y) eqn:?Hdiffers
  | |- context [stringify_falkordb_response env ?x] =>
      destruct (stringify_falkordb_response env x) as [?context|?e|?e] eqn:?Hstringify
  | |- context [is_rate_limit ?x] =>
      destruct (is_rate_limit x) eqn:?Hrate
  | |- context [delete_last_message env ?x] =>
      destruct (delete_last_message env x) as [?w [[]|?e|?e]] eqn:?Hdelete
  end.

Ltac split_attempt := unfold_attempt; repeat (case_call; simpl).

(** Replay an iteration along the calls the hypotheses describe. *)
Ltac replay :=
  repeat (simpl; match goal with
                 | H : _ = (_, _) |- _ => rewrite H
                 | H : _ = Ok _ |- _ => rewrite H
                 | H : _ = Raise _ |- _ => rewrite H
                 | H : _ = true |- _ => rewrite H
                 | H : _ = false |- _ => rewrite H
                 | H : _ = Some _ |- _ => rewrite H
                 | H : _ = None |- _ => rewrite H
                 end).

(** What one iteration adds to the trace: one send unless building the
    prompt raised, and at most one query and one discarded turn. *)
Lemma attempt_events (m : Machine) :
  exists evs,
    trace (attempt m).1 = trace m ++ evs /\
    count_sends evs =
      match prompt_of (cypher_prompt (locals m)) with Ok _ => 1 | _ => 0 end /\
    count_deletes evs <= 1 /\ count_queries evs <= 1.
Proof.
  split_attempt.
  all: try rewrite <- !app_assoc; simpl.
  all: eexists; (split; [first [reflexivity | symmetry; apply app_nil_r]|]).
  all: cbv; auto.
Qed.

Lemma attempt_sends (m : Machine) :
  count_sends (trace (attempt m).1) <= count_sends (trace m) + 1.
Proof.
  destruct (attempt_events m) as (evs & -> & Hs & _).
  rewrite count_sends_app, Hs. destruct (prompt_of _); lia.
Qed.

Lemma loop_sends (n : nat) (m : Machine) :
  count_sends (trace (loop n m).1) <= count_sends (trace m) + n.
Proof.
  revert m. induction n as [|n IH]; intros m; simpl; [lia|].
  pose proof (attempt_sends m) as Hm.
  destruct (attempt m) as [m' [t| |e]]; simpl in *; try lia.
  specialize (IH m'). lia.
Qed.

(** The trace only grows. *)
Lemma loop_trace_extends (n : nat) (m : Machine) :
  exists evs, trace (loop n m).1 = trace m ++ evs.
Proof.
  revert m. induction n as [|n IH]; intros m; simpl.
  - exists []. by rewrite app_nil_r.
  - destruct (attempt_events m) as (evs & Ha & _).
    destruct (attempt m) as [m' [t| |e]]; simpl in *; eauto.
    destruct (IH m') as (evs' & ->). rewrite Ha, <- app_assoc. eauto.
Qed.

(** C1. For every question and every [retries >= 0], one call of [run]
    sends at most [retries] messages to the chat session. *)
Theorem run_sends_at_most_retries (retries : Z) (w : World) :
  (0 <= retries)%Z ->
  (Z.of_nat (count_sends (trace (run retries w).1)) <= retries)%Z.
Proof.
  intros Hr. unfold run.
  pose proof (loop_sends (Z.to_nat retries) (initial w)) as H.
  simpl in H. lia.
Qed.

(** An iteration sends exactly once when its prompt could be built, and
    not at all when building it raised. *)
Lemma attempt_sends_exactly (m : Machine) :
  count_sends (trace (attempt m).1) =
  count_sends (trace m) +
  match prompt_of (cypher_prompt (locals m)) with Ok _ => 1 | _ => 0 end.
Proof.
  destruct (attempt_events m) as (evs & -> & Hs & _).
  by rewrite count_sends_app, Hs.
Qed.

(** The first call an iteration makes is the send of its prompt. *)
Lemma attempt_sends_prompt (m : Machine) (p : string) :
  prompt_of (cypher_prompt (locals m)) = Ok p ->
  exists evs, trace (attempt m).1 = trace m ++ EvSend p :: evs.
Proof.
  intros Hp. unfold_attempt. rewrite Hp. simpl.
  repeat (case_call; simpl).
  all: try rewrite <- !app_assoc; simpl; eauto.
Qed.

(** Nothing is discarded while the [try] body runs. *)
Lemma try_body_no_delete (m : Machine) :
  count_deletes (trace (try_body m).1) = count_deletes (trace m).
Proof.
  unfold try_body, bind, read, pure_call, modify, world_call, ret, throw.
  rewrite build_prompt_spec.
  repeat (case_call; simpl).
  all: rewrite ?count_deletes_app; simpl; cbn; lia.
Qed.

(** When the [try] body raises, [cypher_prompt] holds the prompt of this
    iteration, and [last_empty_query] and [error] are as they were. *)
Lemma try_body_raise_frame (m m1 : Machine) (e : PyExn) :
  try_body m = (m1, Raise e) ->
  last_empty_query (locals m1) = last_empty_query (locals m) /\
  error (locals m1) = error (locals m) /\
  match prompt_of (cypher_prompt (locals m)) with
  | Ok p => cypher_prompt (locals m1) = p
  | Raise e0 => m1 = m /\ e = e0
  | RaiseBase _ => False
  end.
Proof.
  unfold try_body, bind, read, pure_call, modify, world_call, ret, throw.
  rewrite build_prompt_spec.
  repeat (case_call; simpl).
  all: intros [= <- <-] || intros [=]; simpl; auto.
Qed.

(** The handler of lines 116-122 on a rate-limited and on any other
    exception. *)
Lemma handler_rate_limit (e : PyExn) (m1 : Machine) :
  is_rate_limit e = true ->
  handler e m1 =
  match delete_last_message env (world m1) with
  | (w, Ok _) =>
      (mkMachine (locals (set_error e m1)) w (trace m1 ++ [EvDeleteLast]),
       NextIteration)
  | (w, Raise e') | (w, RaiseBase e') =>
      (mkMachine (locals (set_error e m1)) w (trace m1 ++ [EvDeleteLast]),
       Escaped e')
  end.
Proof.
  intros H. unfold handler, world_call. rewrite H. simpl.
  by destruct (delete_last_message env (world m1)) as [w [[]|e'|e']].
Qed.

Lemma handler_other (e : PyExn) (m1 : Machine) :
  is_rate_limit e = false ->
  handler e m1 =
  (set_cypher_prompt (error_prompt (exn_str e) question) (set_error e m1),
   NextIteration).
Proof. intros H. unfold handler. by rewrite H. Qed.

Lemma attempt_raise (m m1 : Machine) (e : PyExn) :
  try_body m = (m1, Raise e) -> attempt m = handler e m1.
Proof. intros H. unfold attempt. by rewrite H. Qed.

(** C6. An iteration that fails with a rate-limited error discards the
    last turn of the session exactly once, leaves the prompt as it was, so
    that the next iteration sends the same prompt again, and uses up one
    iteration of the budget. *)
Theorem rate_limit_keeps_prompt (m m1 : Machine) (e : PyExn) :
  try_body m = (m1, Raise e) ->
  is_rate_limit e = true ->
  count_deletes (trace (attempt m).1) = count_deletes (trace m) + 1 /\
  trace (attempt m).1 = trace m1 ++ [EvDeleteLast] /\
  cypher_prompt (locals (attempt m).1) = cypher_prompt (locals m1) /\
  (forall p, prompt_of (cypher_prompt (locals m)) = Ok p ->
     cypher_prompt (locals m1) = p /\
     prompt_of (cypher_prompt (locals (attempt m).1)) = Ok p /\
     exists evs, trace (attempt (attempt m).1).1 =
                 trace (attempt m).1 ++ EvSend p :: evs) /\
  (forall n, loop (S n) m =
     match delete_last_message env (world m1) with
     | (_, Ok _) => loop n (attempt m).1
     | (_, Raise e') => ((attempt m).1, Failure e')
     | (_, RaiseBase e') => ((attempt m).1, Failure e')
     end).
Proof.
  intros Hbody Hrate.
  pose proof (try_body_no_delete m) as Hdel. rewrite Hbody in Hdel. simpl in Hdel.
  destruct (try_body_raise_frame _ _ _ Hbody) as (_ & _ & Hp).
  assert (Hatt : attempt m = handler e m1) by by apply attempt_raise.
  rewrite handler_rate_limit in Hatt by done.
  split; [|split; [|split; [|split]]].
  - rewrite Hatt. destruct (delete_last_message env (world m1)) as [w [[]|e'|e']];
      simpl; rewrite count_deletes_app, Hdel; reflexivity.
  - rewrite Hatt. by destruct (delete_last_message env (world m1)) as [w [[]|e'|e']].
  - rewrite Hatt. by destruct (delete_last_message env (world m1)) as [w [[]|e'|e']].
  - intros p Hprompt. rewrite Hprompt in Hp.
    assert (Hnext : prompt_of (cypher_prompt (locals (attempt m).1)) = Ok p).
    { rewrite Hatt.
      destruct (delete_last_message env (world m1)) as [w [[]|e'|e']]; simpl;
        rewrite Hp; by apply prompt_of_idem with (c := cypher_prompt (locals m)). }
    split; [done|]. split; [done|]. by apply attempt_sends_prompt.
  - intros n. simpl. rewrite Hatt.
    by destruct (delete_last_message env (world m1)) as [w [[]|e'|e']].
Qed.

(** C10. A caught exception is treated as a rate limit exactly when
    ["litellm.RateLimitError"] occurs in its [str]; whatever raised it, it
    then takes the path that discards the last turn and keeps the prompt,
    and otherwise the path that replaces the prompt by the repair prompt. *)
Theorem rate_limit_is_a_substring_test (m m1 : Machine) (e : PyExn) :
  try_body m = (m1, Raise e) ->
  (is_rate_limit e = true <->
   exists a b, exn_str e = a +:+ "litellm.RateLimitError" +:+ b) /\
  (is_rate_limit e = true ->
     trace (attempt m).1 = trace m1 ++ [EvDeleteLast] /\
     cypher_prompt (locals (attempt m).1) = cypher_prompt (locals m1) /\
     error (locals (attempt m).1) = Some e) /\
  (is_rate_limit e = false ->
     attempt m =
     (set_cypher_prompt (error_prompt (exn_str e) question) (set_error e m1),
      NextIteration)).
Proof.
  intros Hbody. split; [apply str_in_spec|]. split.
  - intros Hrate. rewrite (attempt_raise _ _ _ Hbody), handler_rate_limit by done.
    by destruct (delete_last_message env (world m1)) as [w [[]|e'|e']].
  - intros Hrate. by rewrite (attempt_raise _ _ _ Hbody), handler_other.
Qed.

(** *** The recorded empty query *)

Lemma differs_true (q : string) (last : option string) :
  differs q last = true <-> last <> Some q.
Proof.
  destruct last as [q'|]; simpl; [|done].
  destruct (String.eqb_spec q q') as [->|Hne]; simpl; split; try done.
  intros _ [= ->]. done.
Qed.

(** An iteration leaves [last_empty_query] alone or overwrites it with a
    different query, and then goes on to the next iteration. *)
Lemma attempt_last_empty_query (m : Machine) :
  last_empty_query (locals (attempt m).1) = last_empty_query (locals m) \/
  exists q, last_empty_query (locals (attempt m).1) = Some q /\
            last_empty_query (locals m) <> Some q /\
            (attempt m).2 = NextIteration.
Proof.
  split_attempt; auto.
  right. exists q. split; [reflexivity|]. split; [|reflexivity].
  by apply (proj1 (differs_true _ _)).
Qed.

Lemma attempt_raise_last_empty_query (m m1 : Machine) (e : PyExn) :
  try_body m = (m1, Raise e) ->
  last_empty_query (locals (attempt m).1) = last_empty_query (locals m).
Proof.
  intros Hbody. destruct (try_body_raise_frame _ _ _ Hbody) as (<- & _ & _).
  rewrite (attempt_raise _ _ _ Hbody).
  destruct (is_rate_limit e) eqn:Hrate.
  - rewrite handler_rate_limit by done.
    by destruct (delete_last_message env (world m1)) as [w [[]|e'|e']].
  - by rewrite handler_other.
Qed.

Lemma recoveries_last_empty_query (k : nat) (m0 m : Machine) :
  recoveries k m0 = Some m ->
  last_empty_query (locals m) = last_empty_query (locals m0).
Proof.
  revert m0. induction k as [|k IH]; intros m0; simpl.
  - by intros [= ->].
  - destruct (try_body m0) as [m1 [f|e|e]] eqn:Hbody; [done| |done].
    pose proof (attempt_raise_last_empty_query _ _ _ Hbody) as Hkeep.
    destruct (attempt m0) as [m' [t| |e']]; try done.
    intros Hrec. rewrite (IH _ Hrec). exact Hkeep.
Qed.

(** *** An iteration in which the model replied *)

Section Replied.

Variables (m : Machine) (p : string) (w1 : World).
Variables (response : GenerationResponse) (result : ExtractResult).
Hypothesis Hprompt : prompt_of (cypher_prompt (locals m)) = Ok p.
Hypothesis Hsend : send_message env p (world m) = (w1, Ok response).
Hypothesis Hextract : extract_cypher env (text response) = Ok result.

Lemma attempt_no_answer :
  declined result = true \/ context_of result = None ->
  attempt m = (after_send p w1 m, Returned no_answer).
Proof using Hprompt Hsend Hextract.
  intros Hno. unfold_attempt. replay.
  destruct (declined result); [done|].
  destruct Hno as [|Hno]; [done|]. by rewrite Hno.
Qed.

(** C2. When the reply yields nothing, an error marker, or no usable
    query, the iteration returns the tuple of four [None] after its one
    send and no further iteration runs; on the first iteration, [run]
    has then sent exactly once, whatever [retries >= 1] is. *)
Theorem no_answer_is_final :
  result = None \/ result = Some ∅ \/
  (exists d, result = Some d /\
     (is_Some (d !! "error") \/ d !! "context" = None \/
      d !! "context" = Some None)) ->
  (forall n, loop (S n) m = (after_send p w1 m, Result no_answer)) /\
  (forall w retries, m = initial w -> (1 <= retries)%Z ->
     (run retries w).2 = Result no_answer /\
     trace (run retries w).1 = [EvSend p] /\
     count_sends (trace (run retries w).1) = 1).
Proof using Hprompt Hsend Hextract.
  intros Hno.
  assert (Hatt : attempt m = (after_send p w1 m, Returned no_answer)).
  { apply attempt_no_answer.
    destruct Hno as [->| [->| (d & -> & [Herr|[Hctx|Hctx]])]]; simpl.
    - by left.
    - by left.
    - left. rewrite (bool_decide_eq_true_2 _ Herr). apply orb_true_r.
    - right. by rewrite Hctx.
    - right. by rewrite Hctx. }
  assert (Hloop : forall n, loop (S n) m = (after_send p w1 m, Result no_answer)).
  { intros n. simpl. by rewrite Hatt. }
  split; [done|]. intros w retries -> Hr. unfold run.
  destruct (Z.to_nat retries) as [|n] eqn:Hn; [lia|].
  by rewrite Hloop.
Qed.

(** *** ... and proposed a query *)

Section Candidate.

Variable q : string.
Hypothesis Hdeclined : declined result = false.
Hypothesis Hcontext : context_of result = Some q.

(** A query the validator rejects reaches the handler as an
    [Exception] whose text is the joined messages. *)
Lemma try_body_invalid (errs : list string) :
  validate_cypher env q (self_ontology self) = Ok (Some errs) ->
  try_body m =
  (set_cypher q (after_send p w1 m), Raise (Exception (join_lines errs))).
Proof using Hprompt Hsend Hextract Hdeclined Hcontext.
  intros Hvalidate.
  unfold try_body, bind, read, pure_call, modify, world_call, ret, throw.
  rewrite build_prompt_spec. by replay.
Qed.

(** An exception of the graph store reaches the handler as it is. *)
Lemma try_body_query_raises (w2 : World) (e : PyExn) :
  validate_cypher env q (self_ontology self) = Ok None ->
  graph_query env q w1 = (w2, Raise e) ->
  try_body m = (after_query q w2 (after_send p w1 m), Raise e).
Proof using Hprompt Hsend Hextract Hdeclined Hcontext.
  intros Hvalidate Hquery.
  unfold try_body, bind, read, pure_call, modify, world_call, ret, throw.
  rewrite build_prompt_spec. by replay.
Qed.

(** C4, as the code has it.  A query the validator rejects is not
    executed in that iteration; and unless the joined messages contain
    ["litellm.RateLimitError"], the next iteration sends the repair
    prompt, in which the joined messages occur. *)
Theorem invalid_query_is_not_executed (errs : list string) :
  validate_cypher env q (self_ontology self) = Ok (Some errs) ->
  count_queries (trace (attempt m).1) = count_queries (trace m) /\
  (is_rate_limit (Exception (join_lines errs)) = false ->
     let next := error_prompt (join_lines errs) question in
     (attempt m).2 = NextIteration /\
     trace (attempt m).1 = trace m ++ [EvSend p] /\
     (exists evs, trace (attempt (attempt m).1).1 =
                  trace (attempt m).1 ++ EvSend next :: evs) /\
     str_in (join_lines errs) next = true).
Proof using Hprompt Hsend Hextract Hdeclined Hcontext.
  intros Hvalidate.
  pose proof (try_body_invalid _ Hvalidate) as Hbody.
  pose proof (attempt_raise _ _ _ Hbody) as Hatt.
  split.
  - rewrite Hatt. unfold handler, world_call.
    destruct (is_rate_limit _); simpl.
    + destruct (delete_last_message env w1) as [w [[]|e'|e']]; simpl;
        rewrite !count_queries_app; cbn; lia.
    + rewrite count_queries_app; cbn; lia.
  - intros Hrate next. rewrite Hatt, handler_other by done.
    split; [done|]. split; [done|]. split.
    + apply attempt_sends_prompt, prompt_of_error_prompt.
    + apply error_prompt_quotes.
Qed.

(** *** ... which passed validation and was executed *)

Section Executed.

Variables (w2 : World) (rows : Rows) (time : Z).
Hypothesis Hvalidate :
  validate_cypher env q (self_ontology self) = Ok None.
Hypothesis Hquery : graph_query env q w1 = (w2, Ok (rows, time)).

Lemma differs_recorded : differs q (Some q) = false.
Proof. simpl. by rewrite String.eqb_refl. Qed.

Lemma attempt_accepts (is_empty_result : bool) (context : string) :
  check_falkordb_result_set_empty env rows = Ok is_empty_result ->
  is_empty_result && differs q (last_empty_query (locals m)) = false ->
  stringify_falkordb_response env rows = Ok context ->
  attempt m =
  (after_query q w2 (after_send p w1 m),
   Returned (Some context, Some q, Some time, display_of result)).
Proof using Hprompt Hsend Hextract Hdeclined Hcontext Hvalidate Hquery.
  intros Hempty Hacc Hstringify. unfold_attempt. by replay.
Qed.

(** C3. When the query passed validation and the store returned rows
    that are not empty, [run] returns the rendering of those rows,
    the query, the run time the store reported and the display form
    of the extraction result, [None] when it has none. *)
Theorem success_returns_rows (context : string) :
  check_falkordb_result_set_empty env rows = Ok false ->
  stringify_falkordb_response env rows = Ok context ->
  exists d,
    result = Some d /\
    forall n,
      loop (S n) m =
      (after_query q w2 (after_send p w1 m),
       Result (Some context, Some q, Some time,
               match d !! "display" with
               | Some v => v
               | None => None
               end)).
Proof using Hprompt Hsend Hextract Hdeclined Hcontext Hvalidate Hquery.
  intros Hempty Hstringify.
  assert (Hd : exists d, result = Some d).
  { clear -Hdeclined. destruct result; [eauto|done]. }
  destruct Hd as [d Hd].
  exists d. split; [done|]. intros n. simpl.
  rewrite (attempt_accepts false context) by auto.
  unfold display_of. rewrite Hd. by destruct (d !! "display").
Qed.

(** C5. An empty result of the query recorded in [last_empty_query]
    is returned as the final answer; an empty result of any other
    query records it, replaces the prompt by the empty-result
    prompt and goes on to the next iteration. *)
Theorem empty_result_repeated_or_retried :
  check_falkordb_result_set_empty env rows = Ok true ->
  (last_empty_query (locals m) = Some q ->
   forall context n,
     stringify_falkordb_response env rows = Ok context ->
     loop (S n) m =
     (after_query q w2 (after_send p w1 m),
      Result (Some context, Some q, Some time, display_of result))) /\
  (last_empty_query (locals m) <> Some q ->
   let m' := set_cypher_prompt (empty_result_prompt question)
               (set_last_empty_query q
                  (after_query q w2 (after_send p w1 m))) in
   attempt m = (m', NextIteration) /\
   last_empty_query (locals m') = Some q /\
   cypher_prompt (locals m') = empty_result_prompt question /\
   (exists evs, trace (attempt m').1 =
                trace m' ++ EvSend (empty_result_prompt question) :: evs) /\
   forall n, loop (S n) m = loop n m').
Proof using Hprompt Hsend Hextract Hdeclined Hcontext Hvalidate Hquery.
  intros Hempty. split.
  - intros Hlast context n Hstringify. simpl.
    rewrite (attempt_accepts true context Hempty); [done| |done].
    rewrite Hlast. apply differs_recorded.
  - intros Hlast m'.
    assert (Hatt : attempt m = (m', NextIteration)).
    { apply differs_true in Hlast. unfold_attempt. by replay. }
    split; [done|]. split; [done|]. split; [done|]. split.
    { apply attempt_sends_prompt, prompt_of_empty_result_prompt. }
    intros n. simpl. by rewrite Hatt.
Qed.

(** C9. [last_empty_query] is never cleared: iterations that end in
    the exception handler leave it as it is, so a query recorded
    before them is still accepted as final when it comes back
    empty after them. *)
Theorem recorded_empty_query_survives_recoveries
    (m0 : Machine) (k : nat) (context : string) :
  last_empty_query (locals m0) = Some q ->
  recoveries k m0 = Some m ->
  check_falkordb_result_set_empty env rows = Ok true ->
  stringify_falkordb_response env rows = Ok context ->
  last_empty_query (locals m) = Some q /\
  attempt m =
  (after_query q w2 (after_send p w1 m),
   Returned (Some context, Some q, Some time, display_of result)) /\
  (forall m',
     is_Some (last_empty_query (locals m')) ->
     is_Some (last_empty_query (locals (attempt m').1))).
Proof using Hprompt Hsend Hextract Hdeclined Hcontext Hvalidate Hquery.
  intros Hlast Hrec Hempty Hstringify.
  assert (Hm : last_empty_query (locals m) = Some q).
  { by rewrite (recoveries_last_empty_query _ _ _ Hrec). }
  split; [done|]. split.
  { apply (attempt_accepts true); [done| |done].
    rewrite Hm. apply differs_recorded. }
  intros m' Hsome.
  destruct (attempt_last_empty_query m') as [->|(q' & -> & _)]; eauto.
Qed.

End Executed.

End Candidate.
End Replied.

(** *** The prompt of later iterations *)

Lemma try_body_continue (m m1 : Machine) :
  try_body m = (m1, Ok FContinue) ->
  cypher_prompt (locals m1) = empty_result_prompt question.
Proof.
  unfold try_body, bind, read, pure_call, modify, world_call, ret, throw.
  rewrite build_prompt_spec.
  repeat (case_call; simpl).
  all: intros [= <-] || intros [=]; reflexivity.
Qed.

(** Where the prompt of the next iteration comes from. *)
Lemma attempt_next_prompt (m m' : Machine) :
  attempt m = (m', NextIteration) ->
  ((try_body m).2 = Ok FContinue /\
   cypher_prompt (locals m') = empty_result_prompt question) \/
  (exists e, (try_body m).2 = Raise e /\ is_rate_limit e = false /\
             cypher_prompt (locals m') = error_prompt (exn_str e) question) \/
  (exists e, (try_body m).2 = Raise e /\ is_rate_limit e = true /\
             cypher_prompt (locals m') = cypher_prompt (locals (try_body m).1)).
Proof.
  unfold attempt. destruct (try_body m) as [m1 [[t|]|e|e]] eqn:Hbody; simpl.
  - done.
  - intros [= <-]. left. split; [done|]. by apply try_body_continue with m.
  - destruct (is_rate_limit e) eqn:Hrate.
    + rewrite handler_rate_limit by done.
      destruct (delete_last_message env (world m1)) as [w [[]|e'|e']]; [|done..].
      intros [= <-]. right. right. by exists e.
    + rewrite handler_other by done.
      intros [= <-]. right. left. by exists e.
  - done.
Qed.

(** The next iteration does not rebuild the prompt it was left. *)
Lemma attempt_prompt_carried (m m' : Machine) (p' : string) :
  attempt m = (m', NextIteration) ->
  prompt_of (cypher_prompt (locals m')) = Ok p' ->
  p' = cypher_prompt (locals m').
Proof.
  intros Hatt.
  destruct (attempt_next_prompt _ _ Hatt)
    as [[_ ->]|[(e & _ & _ & ->)|(e & He & _ & ->)]].
  - rewrite prompt_of_empty_result_prompt. congruence.
  - rewrite prompt_of_error_prompt. congruence.
  - destruct (try_body m) as [m1 r] eqn:Hbody. simpl in *. subst r.
    destruct (try_body_raise_frame _ _ _ Hbody) as (_ & _ & Hp).
    destruct (prompt_of (cypher_prompt (locals m))) as [p|e0|e0] eqn:Hprompt.
    + rewrite Hp, (prompt_of_idem _ _ Hprompt). congruence.
    + destruct Hp as [-> _]. congruence.
    + done.
Qed.

Lemma loop_first_send (n : nat) (m : Machine) (p : string) :
  prompt_of (cypher_prompt (locals m)) = Ok p ->
  exists evs, trace (loop (S n) m).1 = trace m ++ EvSend p :: evs.
Proof.
  intros Hp. destruct (attempt_sends_prompt _ _ Hp) as (evs & Hevs).
  simpl. destruct (attempt m) as [m' [t| |e]]; simpl in *; eauto.
  destruct (loop_trace_extends n m') as (evs' & ->).
  rewrite Hevs, <- app_assoc. simpl. eauto.
Qed.

(** What the next iteration sends: the prompt the iteration before it
    left. *)
Lemma attempt_next_send (m m' : Machine) :
  attempt m = (m', NextIteration) ->
  ((try_body m).2 = Ok FContinue /\
   cypher_prompt (locals m') = empty_result_prompt question /\
   exists evs, trace (attempt m').1 =
               trace m' ++ EvSend (empty_result_prompt question) :: evs) \/
  (exists e, (try_body m).2 = Raise e /\ is_rate_limit e = false /\
     cypher_prompt (locals m') = error_prompt (exn_str e) question /\
     exists evs, trace (attempt m').1 =
                 trace m' ++ EvSend (error_prompt (exn_str e) question) :: evs) \/
  (exists e, (try_body m).2 = Raise e /\ is_rate_limit e = true /\
     cypher_prompt (locals m') = cypher_prompt (locals (try_body m).1) /\
     match prompt_of (cypher_prompt (locals m)) with
     | Ok p =>
         (exists evs0, trace m' = trace m ++ EvSend p :: evs0) /\
         (exists evs, trace (attempt m').1 = trace m' ++ EvSend p :: evs)
     | _ =>
         count_sends (trace m') = count_sends (trace m) /\
         count_sends (trace (attempt m').1) = count_sends (trace m')
     end).
Proof.
  intros Hatt.
  destruct (attempt_next_prompt _ _ Hatt)
    as [[Hflow Hcp]|[(e & He & Hrate & Hcp)|(e & He & Hrate & Hcp)]].
  - left. split; [done|]. split; [done|].
    apply attempt_sends_prompt. rewrite Hcp. apply prompt_of_empty_result_prompt.
  - right. left. exists e. split; [done|]. split; [done|]. split; [done|].
    apply attempt_sends_prompt. rewrite Hcp. apply prompt_of_error_prompt.
  - right. right. exists e. split; [done|]. split; [done|]. split; [done|].
    destruct (try_body m) as [m1 r] eqn:Hbody. simpl in *. subst r.
    destruct (try_body_raise_frame _ _ _ Hbody) as (_ & _ & Hp).
    pose proof (attempt_events m) as (evs0 & Htr & Hsends & _).
    rewrite Hatt in Htr. simpl in Htr.
    destruct (prompt_of (cypher_prompt (locals m))) as [p|e0|e0] eqn:Hprompt.
    + split.
      * destruct (attempt_sends_prompt _ _ Hprompt) as (evs & Hevs).
        rewrite Hatt in Hevs. eauto.
      * apply attempt_sends_prompt. rewrite Hcp, Hp.
        by apply prompt_of_idem with (cypher_prompt (locals m)).
    + destruct Hp as [-> _]. split.
      * rewrite Htr, count_sends_app, Hsends. lia.
      * rewrite attempt_sends_exactly, Hcp, Hprompt. lia.
    + done.
Qed.

(** C8. The first iteration sends the prompt made from the template
    [cypher_prompt] and the question when no last answer was given, and
    from [cypher_prompt_with_history], the question and the last answer
    when one was.  An iteration after another one sends the prompt that
    one left: the empty-result prompt, the repair prompt of the exception
    it caught, or, after a rate limit, the very prompt that one had
    sent. *)
Theorem prompt_from_template_then_carried :
  (forall w retries tmpl p,
     (1 <= retries)%Z ->
     self_last_answer self = None ->
     self_cypher_prompt self = Some tmpl ->
     str_format env tmpl [("question", question)] = Ok p ->
     exists evs, trace (run retries w).1 = EvSend p :: evs) /\
  (forall w retries ans tmpl p,
     (1 <= retries)%Z ->
     self_last_answer self = Some ans ->
     self_cypher_prompt_with_history self = Some tmpl ->
     str_format env tmpl [("question", question); ("last_answer", ans)] = Ok p ->
     exists evs, trace (run retries w).1 = EvSend p :: evs) /\
  (forall m m',
     attempt m = (m', NextIteration) ->
     ((try_body m).2 = Ok FContinue /\
      cypher_prompt (locals m') = empty_result_prompt question /\
      exists evs, trace (attempt m').1 =
                  trace m' ++ EvSend (empty_result_prompt question) :: evs) \/
     (exists e, (try_body m).2 = Raise e /\ is_rate_limit e = false /\
        cypher_prompt (locals m') = error_prompt (exn_str e) question /\
        exists evs, trace (attempt m').1 =
                    trace m' ++ EvSend (error_prompt (exn_str e) question) :: evs) \/
     (exists e, (try_body m).2 = Raise e /\ is_rate_limit e = true /\
        cypher_prompt (locals m') = cypher_prompt (locals (try_body m).1) /\
        match prompt_of (cypher_prompt (locals m)) with
        | Ok p =>
            (exists evs0, trace m' = trace m ++ EvSend p :: evs0) /\
            (exists evs, trace (attempt m').1 = trace m' ++ EvSend p :: evs)
        | _ =>
            count_sends (trace m') = count_sends (trace m) /\
            count_sends (trace (attempt m').1) = count_sends (trace m')
        end)).
Proof.
  split; [|split].
  - intros w retries tmpl p Hr Hans Htmpl Hfmt. unfold run.
    destruct (Z.to_nat retries) as [|n] eqn:Hn; [lia|].
    apply (loop_first_send n (initial w) p).
    unfold prompt_of, first_prompt. simpl. by rewrite Hans, Htmpl.
  - intros w retries ans tmpl p Hr Hans Htmpl Hfmt. unfold run.
    destruct (Z.to_nat retries) as [|n] eqn:Hn; [lia|].
    apply (loop_first_send n (initial w) p).
    unfold prompt_of, first_prompt. simpl. by rewrite Hans, Htmpl.
  - apply attempt_next_send.
Qed.

(** *** Running out of iterations *)

Lemma attempt_records_error (m m1 : Machine) (e : PyExn) :
  try_body m = (m1, Raise e) -> error (locals (attempt m).1) = Some e.
Proof.
  intros Hbody. rewrite (attempt_raise _ _ _ Hbody).
  destruct (is_rate_limit e) eqn:Hrate.
  - rewrite handler_rate_limit by done.
    by destruct (delete_last_message env (world m1)) as [w [[]|e'|e']].
  - by rewrite handler_other.
Qed.

(** With an exception on record, line 124 reports its text. *)
Lemma exhausted_reports_error (m : Machine) (e : PyExn) :
  error (locals m) = Some e ->
  exhausted m =
  Failure (Exception ("Failed to generate Cypher query: " +:+ exn_str e)).
Proof. intros H. unfold exhausted. by rewrite H. Qed.

(** An iteration that ends with [continue] after an empty result records
    no exception. *)
Lemma try_body_ok_keeps_error (m m1 : Machine) (f : Flow) :
  try_body m = (m1, Ok f) -> error (locals m1) = error (locals m).
Proof.
  unfold try_body, bind, read, pure_call, modify, world_call, ret, throw.
  rewrite build_prompt_spec.
  repeat (case_call; simpl).
  all: intros [= <- <-] || intros [=]; reflexivity.
Qed.

(** C7, where the code departs from it.  With no iteration at all, line 124
    reads [error] before anything was bound to it: [run] ends in an
    [UnboundLocalError], not in the failure that names the last error. *)
Theorem run_without_iterations_reads_unbound_error (retries : Z) (w : World) :
  (retries <= 0)%Z ->
  run retries w = (initial w, Failure UnboundLocalError_error).
Proof.
  intros Hr. unfold run.
  replace (Z.to_nat retries) with 0 by lia. reflexivity.
Qed.

(** *** How iterations compose *)

Abbreviation goes_on := (goes_on env self question).
Abbreviation iterations := (iterations env self question).

(** X1. [n + k] iterations are [n] iterations and, when all of those went
    on, [k] more from the machine they left; when one of them returned or
    let an exception escape, the [k] extra iterations change nothing. *)
Theorem loop_add (n k : nat) (m : Machine) :
  loop (n + k) m =
  match goes_on n m with
  | Some m' => loop k m'
  | None => loop n m
  end.
Proof.
  revert m. induction n as [|n IH]; intros m; [done|].
  cbn [Nat.add]. simpl. destruct (attempt m) as [m' [t| |e]]; [done| |done].
  apply IH.
Qed.

Lemma loop_result_ends_early (n : nat) (m : Machine) (t : RunTuple) :
  (loop n m).2 = Result t -> goes_on n m = None.
Proof.
  revert m. induction n as [|n IH]; intros m; simpl.
  - unfold exhausted. by destruct (error (locals m)).
  - destruct (attempt m) as [m' [t'| |e]]; [done| |done]. apply IH.
Qed.

(** X2. A run that returns a tuple does not depend on the iterations left
    over: with a larger [retries] it returns the same tuple, ends in the
    same world and makes the same calls. *)
Theorem more_retries_same_result (retries retries' : Z) (w : World) (t : RunTuple) :
  (run retries w).2 = Result t ->
  (retries <= retries')%Z ->
  run retries' w = run retries w.
Proof.
  unfold run. intros Hres Hle.
  replace (Z.to_nat retries')
    with (Z.to_nat retries + (Z.to_nat retries' - Z.to_nat retries)) by lia.
  rewrite loop_add. by rewrite (loop_result_ends_early _ _ _ Hres).
Qed.

(** *** What a returned tuple stands for *)

(** An iteration that returns was preceded by a reply of the model; it
    returns the four [None] when the reply gave no query, and otherwise the
    query validated and executed in this iteration, with the rendering of
    its rows and its run time. *)
Lemma attempt_returned (m m' : Machine) (t : RunTuple) :
  attempt m = (m', Returned t) ->
  (t = no_answer /\ last (trace m') = Some (EvSend (cypher_prompt (locals m')))) \/
  (exists q rows time context display w1,
     t = (Some context, Some q, Some time, display) /\
     validate_cypher env q (self_ontology self) = Ok None /\
     graph_query env q w1 = (world m', Ok (rows, time)) /\
     stringify_falkordb_response env rows = Ok context /\
     last (trace m') = Some (EvQuery q)).
Proof.
  split_attempt.
  all: intros [= <- <-] || intros [=].
  all: try (left; split; [reflexivity|]; simpl; apply last_snoc).
  all: right; do 6 eexists; split; [reflexivity|];
    split; [eassumption|]; split; [eassumption|]; split; [eassumption|];
    simpl; apply last_snoc.
Qed.

Lemma loop_result_last_attempt (n : nat) (m : Machine) (t : RunTuple) :
  (loop n m).2 = Result t ->
  exists m0, attempt m0 = ((loop n m).1, Returned t).
Proof.
  revert m. induction n as [|n IH]; intros m; simpl.
  - unfold exhausted. by destruct (error (locals m)).
  - destruct (attempt m) as [m' [t'| |e]] eqn:Hatt; simpl.
    + intros [= <-]. by exists m.
    + apply IH.
    + done.
Qed.

(** X3. Whatever tuple [run] returns is either the four [None], with a send
    as the last call made, or carries a query that the validator accepted
    and the store executed as the last call made, together with the
    rendering of the rows and the run time of that execution. *)
Theorem returned_query_was_validated_and_executed
    (retries : Z) (w : World) (t : RunTuple) :
  (run retries w).2 = Result t ->
  (t = no_answer /\
   exists p, last (trace (run retries w).1) = Some (EvSend p)) \/
  (exists q rows time context display w1,
     t = (Some context, Some q, Some time, display) /\
     validate_cypher env q (self_ontology self) = Ok None /\
     graph_query env q w1 = (world (run retries w).1, Ok (rows, time)) /\
     stringify_falkordb_response env rows = Ok context /\
     last (trace (run retries w).1) = Some (EvQuery q)).
Proof.
  unfold run. intros Hres.
  destruct (loop_result_last_attempt _ _ _ Hres) as (m0 & Hatt).
  destruct (attempt_returned _ _ _ Hatt) as [[-> Hlast]|Hq]; [left|right]; eauto.
Qed.

(** *** Counting calls *)

(** Once a prompt could be built, the next iteration has one too. *)
Lemma attempt_keeps_prompt (m m' : Machine) (p : string) :
  attempt m = (m', NextIteration) ->
  prompt_of (cypher_prompt (locals m)) = Ok p ->
  exists p', prompt_of (cypher_prompt (locals m')) = Ok p'.
Proof.
  intros Hatt Hp.
  destruct (attempt_next_prompt _ _ Hatt)
    as [[_ ->]|[(e & _ & _ & ->)|(e & He & _ & ->)]].
  - eexists. apply prompt_of_empty_result_prompt.
  - eexists. apply prompt_of_error_prompt.
  - destruct (try_body m) as [m1 r] eqn:Hbody. simpl in *. subst r.
    destruct (try_body_raise_frame _ _ _ Hbody) as (_ & _ & Hp1).
    rewrite Hp in Hp1. rewrite Hp1. exists p. by apply prompt_of_idem with (cypher_prompt (locals m)).
Qed.

Lemma loop_sends_iterations (n : nat) (m : Machine) (p : string) :
  prompt_of (cypher_prompt (locals m)) = Ok p ->
  count_sends (trace (loop n m).1) = count_sends (trace m) + iterations n m.
Proof.
  revert m p. induction n as [|n IH]; intros m p Hp; simpl; [lia|].
  pose proof (attempt_sends_exactly m) as Hs. rewrite Hp in Hs.
  destruct (attempt m) as [m' [t| |e]] eqn:Hatt; simpl in *; try lia.
  destruct (attempt_keeps_prompt _ _ _ Hatt Hp) as (p' & Hp').
  rewrite (IH _ _ Hp'). lia.
Qed.

Lemma iterations_le (n : nat) (m : Machine) : iterations n m <= n.
Proof.
  revert m. induction n as [|n IH]; intros m; simpl; [lia|].
  destruct (attempt m) as [m' [t| |e]]; try lia. specialize (IH m'). lia.
Qed.

Lemma goes_on_iterations (n : nat) (m m' : Machine) :
  goes_on n m = Some m' -> iterations n m = n.
Proof.
  revert m. induction n as [|n IH]; intros m; simpl; [done|].
  destruct (attempt m) as [m1 [t| |e]]; try done.
  intros H. by rewrite (IH _ H).
Qed.

(** X4. When the first prompt can be built, every iteration that runs sends
    exactly one message: [run] sends as many messages as it runs
    iterations, and exactly [retries] when the iterations run out. *)
Theorem one_send_per_iteration (retries : Z) (w : World) (p : string) :
  first_prompt = Ok p ->
  count_sends (trace (run retries w).1) = iterations (Z.to_nat retries) (initial w) /\
  (forall m', goes_on (Z.to_nat retries) (initial w) = Some m' ->
     count_sends (trace (run retries w).1) = Z.to_nat retries).
Proof.
  intros Hp. unfold run.
  assert (Hs : count_sends (trace (loop (Z.to_nat retries) (initial w)).1) =
               iterations (Z.to_nat retries) (initial w)).
  { by rewrite (loop_sends_iterations _ (initial w) p). }
  split; [done|]. intros m' Hgo. by rewrite Hs, (goes_on_iterations _ _ _ Hgo).
Qed.

(** An iteration queries the store only after it sent, and once. *)
Lemma attempt_queries_le_sends (m : Machine) :
  count_queries (trace (attempt m).1) + count_sends (trace m) <=
  count_sends (trace (attempt m).1) + count_queries (trace m).
Proof.
  split_attempt.
  all: rewrite ?count_queries_app, ?count_sends_app; cbn; lia.
Qed.

Lemma loop_queries_le_sends (n : nat) (m : Machine) :
  count_queries (trace (loop n m).1) + count_sends (trace m) <=
  count_sends (trace (loop n m).1) + count_queries (trace m).
Proof.
  revert m. induction n as [|n IH]; intros m; simpl; [lia|].
  pose proof (attempt_queries_le_sends m) as Hm.
  destruct (attempt m) as [m' [t| |e]]; simpl in *; try lia.
  specialize (IH m'). lia.
Qed.

(** X5. The store is never queried more often than the model was asked:
    in the calls of one [run], queries are at most as many as sends, hence
    at most [retries]. *)
Theorem queries_at_most_sends (retries : Z) (w : World) :
  count_queries (trace (run retries w).1) <= count_sends (trace (run retries w).1) /\
  count_queries (trace (run retries w).1) <= Z.to_nat retries.
Proof.
  unfold run.
  pose proof (loop_queries_le_sends (Z.to_nat retries) (initial w)) as Hq.
  pose proof (loop_sends (Z.to_nat retries) (initial w)) as Hs.
  change (count_sends (trace (initial w))) with 0 in *.
  change (count_queries (trace (initial w))) with 0 in *.
  lia.
Qed.

(** *** How a run fails *)

(** An exception escapes an iteration when a call of the [try] block raised
    it outside [Exception], or when [delete_last_message] raised it, called
    for a rate-limited exception that is then on record. *)
Lemma attempt_escaped (m m' : Machine) (f : PyExn) :
  attempt m = (m', Escaped f) ->
  try_body m = (m', RaiseBase f) \/
  exists e w1,
    error (locals m') = Some e /\ is_rate_limit e = true /\
    (delete_last_message env w1 = (world m', Raise f) \/
     delete_last_message env w1 = (world m', RaiseBase f)).
Proof.
  unfold attempt. destruct (try_body m) as [m1 [[t|]|e|e]] eqn:Hbody; try done.
  - destruct (is_rate_limit e) eqn:Hrate.
    + rewrite handler_rate_limit by done.
      destruct (delete_last_message env (world m1)) as [w2 [[]|e'|e']] eqn:Hdel;
        [done| |].
      * intros [= <- <-]. right. exists e, (world m1). auto.
      * intros [= <- <-]. right. exists e, (world m1). auto.
    + by rewrite handler_other.
  - intros [= <- <-]. by left.
Qed.

Lemma loop_failure (n : nat) (m m' : Machine) (f : PyExn) :
  loop n m = (m', Failure f) ->
  exhausted m' = Failure f \/
  (exists m0, try_body m0 = (m', RaiseBase f)) \/
  exists e w1,
    error (locals m') = Some e /\ is_rate_limit e = true /\
    (delete_last_message env w1 = (world m', Raise f) \/
     delete_last_message env w1 = (world m', RaiseBase f)).
Proof.
  revert m. induction n as [|n IH]; intros m; simpl.
  - intros [= <- H]. by left.
  - destruct (attempt m) as [m1 [t| |e]] eqn:Hatt.
    + done.
    + apply IH.
    + intros [= <- <-]. right.
      destruct (attempt_escaped _ _ _ Hatt) as [Hbase|Hdel]; eauto.
Qed.

(** X6. When an exception leaves [run], raised by [run] itself or by one
    of the calls it makes, it is one of five: the [TypeError] of line 70
    when [retries] is [None]; the [UnboundLocalError] of line 124 when no
    exception is on record; the exception of line 124, whose text ends with
    the [str] of the exception on record; an exception that
    [delete_last_message] raised while a rate-limited exception was being
    handled; or an exception outside [Exception] that a call of the [try]
    block raised and line 116 did not catch. *)
Theorem run_failure_cases
    (retries : option Z) (w : World) (m' : Machine) (f : PyExn) :
  run_optional env self question retries w = (m', Failure f) ->
  (retries = None /\ f = TypeError_range) \/
  (error (locals m') = None /\ f = UnboundLocalError_error) \/
  (exists e, error (locals m') = Some e /\
     f = Exception ("Failed to generate Cypher query: " +:+ exn_str e)) \/
  (exists e w1, error (locals m') = Some e /\ is_rate_limit e = true /\
     (delete_last_message env w1 = (world m', Raise f) \/
      delete_last_message env w1 = (world m', RaiseBase f))) \/
  (exists m0, try_body m0 = (m', RaiseBase f)).
Proof.
  destruct retries as [r|]; simpl.
  2:{ intros [= <- <-]. by left. }
  unfold run. intros Hrun. right.
  destruct (loop_failure _ _ _ _ Hrun) as [Hex|[Hbase|Hdel]].
  - unfold exhausted in Hex. destruct (error (locals m')) as [e|] eqn:He.
    + right. left. exists e. split; [done|]. congruence.
    + left. split; [done|]. congruence.
  - right. right. by right.
  - right. right. by left.
Qed.

(** *** The prompts a run sends *)

(** The sends of one iteration carry the prompt of that iteration. *)
Lemma attempt_sent_prompts (m : Machine) :
  exists evs,
    trace (attempt m).1 = trace m ++ evs /\
    forall p, In (EvSend p) evs -> prompt_of (cypher_prompt (locals m)) = Ok p.
Proof.
  split_attempt.
  all: try rewrite <- !app_assoc; simpl.
  all: eexists; (split; [first [reflexivity | symmetry; apply app_nil_r]|]).
  all: simpl; intros p0 Hin; intuition congruence.
Qed.

(** The prompts [run] can send: the first prompt, the empty-result prompt
    and the repair prompts, the last two built around the question. *)
Lemma prompt_stays_known (m m' : Machine) :
  attempt m = (m', NextIteration) ->
  (forall p, prompt_of (cypher_prompt (locals m)) = Ok p ->
     first_prompt = Ok p \/ p = empty_result_prompt question \/
     exists err, p = error_prompt err question) ->
  forall p, prompt_of (cypher_prompt (locals m')) = Ok p ->
    first_prompt = Ok p \/ p = empty_result_prompt question \/
    exists err, p = error_prompt err question.
Proof.
  intros Hatt Hm p.
  destruct (attempt_next_prompt _ _ Hatt)
    as [[_ ->]|[(e & _ & _ & ->)|(e & He & _ & ->)]].
  - rewrite prompt_of_empty_result_prompt. intros [= <-]. auto.
  - rewrite prompt_of_error_prompt. intros [= <-]. eauto.
  - destruct (try_body m) as [m1 r] eqn:Hbody. simpl in *. subst r.
    destruct (try_body_raise_frame _ _ _ Hbody) as (_ & _ & Hp1).
    destruct (prompt_of (cypher_prompt (locals m))) as [p0|e0|e0] eqn:Hp0.
    + rewrite Hp1, (prompt_of_idem _ _ Hp0). intros [= <-]. by apply Hm.
    + destruct Hp1 as [-> _]. rewrite Hp0. done.
    + done.
Qed.

Lemma loop_sent_prompts (n : nat) (m : Machine) :
  (forall p, prompt_of (cypher_prompt (locals m)) = Ok p ->
     first_prompt = Ok p \/ p = empty_result_prompt question \/
     exists err, p = error_prompt err question) ->
  exists evs,
    trace (loop n m).1 = trace m ++ evs /\
    forall p, In (EvSend p) evs ->
      first_prompt = Ok p \/ p = empty_result_prompt question \/
      exists err, p = error_prompt err question.
Proof.
  revert m. induction n as [|n IH]; intros m Hm; simpl.
  - exists []. split; [by rewrite app_nil_r|]. intros p [].
  - destruct (attempt_sent_prompts m) as (evs & Htr & Hevs).
    destruct (attempt m) as [m' [t| |e]] eqn:Hatt; simpl in *.
    + exists evs. split; [done|]. intros p Hin. apply Hm, Hevs, Hin.
    + destruct (IH m' (prompt_stays_known _ _ Hatt Hm)) as (evs' & Htr' & Hevs').
      exists (evs ++ evs'). split; [by rewrite Htr', Htr, app_assoc|].
      intros p Hin. apply in_app_or in Hin as [Hin|Hin].
      * apply Hm, Hevs, Hin.
      * by apply Hevs'.
    + exists evs. split; [done|]. intros p Hin. apply Hm, Hevs, Hin.
Qed.

(** X7. Every message [run] sends is the first prompt, the empty-result
    prompt about the question, or a repair prompt about the question. *)
Theorem run_sends_known_prompts (retries : Z) (w : World) (p : string) :
  In (EvSend p) (trace (run retries w).1) ->
  first_prompt = Ok p \/
  p = empty_result_prompt question \/
  exists err, p = error_prompt err question.
Proof.
  unfold run.
  destruct (loop_sent_prompts (Z.to_nat retries) (initial w)) as (evs & Htr & Hevs).
  { intros p0. unfold prompt_of. simpl. auto. }
  rewrite Htr. simpl. apply Hevs.
Qed.

(** *** Failures after a proposed query *)

Section Proposed.

Variables (m : Machine) (p : string) (w1 : World).
Variables (response : GenerationResponse) (result : ExtractResult) (q : string).
Hypothesis Hprompt : prompt_of (cypher_prompt (locals m)) = Ok p.
Hypothesis Hsend : send_message env p (world m) = (w1, Ok response).
Hypothesis Hextract : extract_cypher env (text response) = Ok result.
Hypothesis Hdeclined : declined result = false.
Hypothesis Hcontext : context_of result = Some q.

(** X8. When the store raises an instance of [Exception] that is not
    rate-limited, the query was executed once, the exception is on record,
    and the next iteration sends the repair prompt, which quotes the [str]
    of the exception.  When it raises an exception outside [Exception],
    line 116 does not catch it: [run] ends with it at once, and nothing is
    put on record. *)
Theorem store_error_is_reported (w2 : World) (e : PyExn) :
  validate_cypher env q (self_ontology self) = Ok None ->
  (graph_query env q w1 = (w2, Raise e) ->
   is_rate_limit e = false ->
   (attempt m).2 = NextIteration /\
   trace (attempt m).1 = trace m ++ [EvSend p; EvQuery q] /\
   world (attempt m).1 = w2 /\
   error (locals (attempt m).1) = Some e /\
   (exists evs, trace (attempt (attempt m).1).1 =
                trace (attempt m).1 ++ EvSend (error_prompt (exn_str e) question) :: evs) /\
   str_in (exn_str e) (error_prompt (exn_str e) question) = true) /\
  (graph_query env q w1 = (w2, RaiseBase e) ->
   forall n,
     loop (S n) m = (after_query q w2 (after_send p w1 m), Failure e) /\
     error (locals (loop (S n) m).1) = error (locals m)).
Proof using Hprompt Hsend Hextract Hdeclined Hcontext.
  intros Hvalidate. split.
  - intros Hquery Hrate.
    pose proof (try_body_query_raises m p w1 response result
                  Hprompt Hsend Hextract q Hdeclined Hcontext w2 e Hvalidate Hquery)
      as Hbody.
    rewrite (attempt_raise _ _ _ Hbody), handler_other by done.
    split; [done|]. split; [by simpl; rewrite <- app_assoc|].
    split; [done|]. split; [done|]. split.
    + apply attempt_sends_prompt, prompt_of_error_prompt.
    + apply error_prompt_quotes.
  - intros Hquery n.
    assert (Hatt : attempt m =
              (after_query q w2 (after_send p w1 m), Escaped e)).
    { unfold_attempt. by replay. }
    simpl. by rewrite Hatt.
Qed.

(** X9. A validator that returns an empty list, not [None], still fails
    the query: it is not executed, an [Exception] with an empty text is on
    record, and the next iteration sends the repair prompt with an empty
    error text. *)
Theorem empty_violation_list_is_a_failure :
  validate_cypher env q (self_ontology self) = Ok (Some []) ->
  (attempt m).2 = NextIteration /\
  trace (attempt m).1 = trace m ++ [EvSend p] /\
  error (locals (attempt m).1) = Some (Exception "") /\
  (exists evs, trace (attempt (attempt m).1).1 =
               trace (attempt m).1 ++ EvSend (error_prompt "" question) :: evs).
Proof using Hprompt Hsend Hextract Hdeclined Hcontext.
  intros Hvalidate.
  pose proof (try_body_invalid m p w1 response result
                Hprompt Hsend Hextract q Hdeclined Hcontext [] Hvalidate)
    as Hbody.
  change (join_lines []) with "" in Hbody.
  rewrite (attempt_raise _ _ _ Hbody), handler_other by reflexivity.
  split; [done|]. split; [done|]. split; [done|].
  apply attempt_sends_prompt, prompt_of_error_prompt.
Qed.

End Proposed.

(** *** A step without its template *)

(** X10. When the template the first prompt needs was not supplied, the
    first iteration makes no call at all and records the
    [AttributeError]; with one iteration allowed [run] fails naming it,
    and with more the second iteration sends the repair prompt about it. *)
Theorem missing_template_is_repaired (w : World) :
  (self_last_answer self = None /\ self_cypher_prompt self = None) \/
  (exists ans, self_last_answer self = Some ans /\
               self_cypher_prompt_with_history self = None) ->
  attempt (initial w) =
    (set_cypher_prompt (error_prompt (exn_str AttributeError_format) question)
       (set_error AttributeError_format (initial w)), NextIteration) /\
  run 1 w =
    (set_cypher_prompt (error_prompt (exn_str AttributeError_format) question)
       (set_error AttributeError_format (initial w)),
     Failure (Exception ("Failed to generate Cypher query: " +:+
                         exn_str AttributeError_format))) /\
  (forall retries, (2 <= retries)%Z ->
     exists evs, trace (run retries w).1 =
       EvSend (error_prompt (exn_str AttributeError_format) question) :: evs).
Proof.
  intros Hmissing.
  assert (Hfirst : first_prompt = Raise AttributeError_format).
  { unfold first_prompt.
    destruct Hmissing as [[-> ->]|(ans & -> & ->)]; reflexivity. }
  assert (Hbody : try_body (initial w) = (initial w, Raise AttributeError_format)).
  { unfold try_body, bind, read, pure_call, modify, world_call, ret, throw.
    rewrite build_prompt_spec. unfold prompt_of. simpl. by rewrite Hfirst. }
  assert (Hatt : attempt (initial w) =
    (set_cypher_prompt (error_prompt (exn_str AttributeError_format) question)
       (set_error AttributeError_format (initial w)), NextIteration)).
  { rewrite (attempt_raise _ _ _ Hbody). by apply handler_other. }
  split; [done|]. split.
  - unfold run. simpl. by rewrite Hatt.
  - intros retries Hr. unfold run.
    destruct (Z.to_nat retries) as [|[|n]] eqn:Hn; [lia|lia|].
    change (loop (S (S n)) (initial w)) with
      (match attempt (initial w) with
       | (m', Returned t) => (m', Result t)
       | (m', NextIteration) => loop (S n) m'
       | (m', Escaped e) => (m', Failure e)
       end).
    rewrite Hatt.
    destruct (loop_first_send n
                (set_cypher_prompt (error_prompt (exn_str AttributeError_format) question)
                   (set_error AttributeError_format (initial w)))
                (error_prompt (exn_str AttributeError_format) question))
      as (evs & ->); [apply prompt_of_error_prompt|].
    simpl. eauto.
Qed.

(** *** A session that stays throttled *)

Lemma throttled_loop (n : nat) (m : Machine) (p : string) (e : PyExn) :
  (forall w, (send_message env p w).2 = Raise e) ->
  (forall w, (delete_last_message env w).2 = Ok tt) ->
  is_rate_limit e = true ->
  prompt_of (cypher_prompt (locals m)) = Ok p ->
  trace (loop n m).1 =
    trace m ++ concat (replicate n [EvSend p; EvDeleteLast]) /\
  (loop n m).2 =
    exhausted (if n is O then m else set_error e m).
Proof.
  intros Hsend Hdel Hrate. revert m.
  induction n as [|n IH]; intros m Hp.
  - simpl. split; [by rewrite app_nil_r|done].
  - assert (Hbody : exists w1, try_body m =
              (after_send p w1 m, Raise e)).
    { unfold try_body, bind, read, pure_call, modify, world_call, ret, throw.
      rewrite build_prompt_spec, Hp. simpl.
      specialize (Hsend (world m)).
      destruct (send_message env p (world m)) as [w1 r]. simpl in Hsend. subst r.
      by exists w1. }
    destruct Hbody as (w1 & Hbody).
    assert (Hatt : exists w2, attempt m =
              (mkMachine (locals (set_error e (after_send p w1 m))) w2
                 (trace m ++ [EvSend p; EvDeleteLast]), NextIteration)).
    { rewrite (attempt_raise _ _ _ Hbody), handler_rate_limit by done.
      specialize (Hdel (world (after_send p w1 m))).
      destruct (delete_last_message env (world (after_send p w1 m))) as [w2 r].
      simpl in Hdel. subst r. exists w2. simpl. by rewrite <- app_assoc. }
    destruct Hatt as (w2 & Hatt).
    simpl. rewrite Hatt.
    destruct (IH (mkMachine (locals (set_error e (after_send p w1 m))) w2
                    (trace m ++ [EvSend p; EvDeleteLast]))) as (Htr & Hout).
    { simpl. by apply prompt_of_idem with (cypher_prompt (locals m)). }
    split.
    + rewrite Htr. simpl. by rewrite <- app_assoc.
    + rewrite Hout. by destruct n.
Qed.

(** X11. When every send of the first prompt is rate-limited and
    [delete_last_message] returns, [run] sends the first prompt and
    discards the turn [retries] times in a row, calls nothing else, and
    fails naming the rate-limit exception. *)
Theorem persistent_rate_limit (retries : Z) (w : World) (p : string) (e : PyExn) :
  (1 <= retries)%Z ->
  first_prompt = Ok p ->
  (forall w', (send_message env p w').2 = Raise e) ->
  (forall w', (delete_last_message env w').2 = Ok tt) ->
  is_rate_limit e = true ->
  trace (run retries w).1 =
    concat (replicate (Z.to_nat retries) [EvSend p; EvDeleteLast]) /\
  (run retries w).2 =
    Failure (Exception ("Failed to generate Cypher query: " +:+ exn_str e)).
Proof.
  intros Hr Hp Hsend Hdel Hrate. unfold run.
  destruct (throttled_loop (Z.to_nat retries) (initial w) p e Hsend Hdel Hrate)
    as (Htr & Hout); [done|].
  split; [done|]. rewrite Hout.
  destruct (Z.to_nat retries) eqn:Hn; [lia|]. reflexivity.
Qed.

(** *** The exception on record *)

Lemma try_body_base_keeps_error (m m1 : Machine) (e : PyExn) :
  try_body m = (m1, RaiseBase e) -> error (locals m1) = error (locals m).
Proof.
  unfold try_body, bind, read, pure_call, modify, world_call, ret, throw.
  rewrite build_prompt_spec.
  repeat (case_call; simpl).
  all: intros [= <- <-] || intros [=]; reflexivity.
Qed.

(** X12. After an iteration, [error] holds the exception that iteration
    caught, and what it held before when the iteration caught none: it is
    always the latest exception caught. *)
Theorem error_is_latest_exception (m : Machine) :
  error (locals (attempt m).1) =
  match (try_body m).2 with
  | Raise e => Some e
  | Ok _ => error (locals m)
  | RaiseBase _ => error (locals m)
  end.
Proof.
  destruct (try_body m) as [m1 [f|e|e]] eqn:Hbody; simpl.
  - rewrite <- (try_body_ok_keeps_error _ _ _ Hbody).
    unfold attempt. rewrite Hbody. by destruct f.
  - by apply attempt_records_error with m1.
  - rewrite <- (try_body_base_keeps_error _ _ _ Hbody).
    unfold attempt. by rewrite Hbody.
Qed.

(** X13. When the send itself raises an instance of [Exception] that is
    not rate-limited, the iteration calls nothing else, and the next
    iteration sends the repair prompt, which quotes the [str] of the
    exception.  When it raises an exception outside [Exception], line 116
    does not catch it: [run] ends with it right after that send. *)
Theorem send_error_is_reported (m : Machine) (p : string) (w1 : World) (e : PyExn) :
  prompt_of (cypher_prompt (locals m)) = Ok p ->
  (send_message env p (world m) = (w1, Raise e) ->
   is_rate_limit e = false ->
   (attempt m).2 = NextIteration /\
   trace (attempt m).1 = trace m ++ [EvSend p] /\
   world (attempt m).1 = w1 /\
   (exists evs, trace (attempt (attempt m).1).1 =
                trace (attempt m).1 ++ EvSend (error_prompt (exn_str e) question) :: evs) /\
   str_in (exn_str e) (error_prompt (exn_str e) question) = true) /\
  (send_message env p (world m) = (w1, RaiseBase e) ->
   forall n, loop (S n) m = (after_send p w1 m, Failure e)).
Proof.
  intros Hprompt. split.
  - intros Hsend Hrate.
    assert (Hbody : try_body m = (after_send p w1 m, Raise e)).
    { unfold try_body, bind, read, pure_call, modify, world_call, ret, throw.
      rewrite build_prompt_spec, Hprompt. simpl. by rewrite Hsend. }
    rewrite (attempt_raise _ _ _ Hbody), handler_other by done.
    split; [done|]. split; [done|]. split; [done|]. split.
    + apply attempt_sends_prompt, prompt_of_error_prompt.
    + apply error_prompt_quotes.
  - intros Hsend n.
    assert (Hatt : attempt m = (after_send p w1 m, Escaped e)).
    { unfold_attempt. rewrite Hprompt. simpl. by rewrite Hsend. }
    simpl. by rewrite Hatt.
Qed.

End Properties.

(** * The statements on the scripted scenario *)

Section OnTheScenario.

Import Scenario.

(** C1 at three iterations that all fail. *)
Lemma run_sends_at_most_retries_witness :
  (0 <= 3)%Z /\
  (Z.of_nat (count_sends (trace (run env_label step_fresh question 3 w0).1)) <= 3)%Z.
Proof.
  split; [lia|]. apply run_sends_at_most_retries. lia.
Defined.

(** C2 at a reply with no text, ten iterations allowed. *)
Lemma no_answer_is_final_witness :
  (run env_noise step_fresh question 10 w0).2 = Result no_answer /\
  trace (run env_noise step_fresh question 10 w0).1 = [EvSend prompt0] /\
  count_sends (trace (run env_noise step_fresh question 10 w0).1) = 1.
Proof.
  refine (proj2 (no_answer_is_final env_noise step_fresh question
                   (initial w0) prompt0 (1, [prompt0]) (mkResponse "") None
                   _ _ _ _) w0 10%Z _ _).
  - reflexivity.
  - reflexivity.
  - reflexivity.
  - left. reflexivity.
  - reflexivity.
  - lia.
Defined.

(** C3 on the question of the people count: one row [42] in 5 ms, no
    display form. *)
Lemma success_returns_rows_witness :
  exists d : PyDict,
    Some ({[ "context" := Some count_people ]} : PyDict) = Some d /\
    forall n,
      loop env_people step_fresh question (S n) (initial w0) =
      (after_query count_people (1, [prompt0])
         (after_send prompt0 (1, [prompt0]) (initial w0)),
       Result (Some "[[42]]", Some count_people, Some 5%Z,
               match d !! "display" with Some v => v | None => None end)).
Proof.
  apply (success_returns_rows env_people step_fresh question
           (initial w0) prompt0 (1, [prompt0]) (mkResponse count_people)
           (Some {[ "context" := Some count_people ]}))
    with (rows := [["42"]]).
  all: vm_compute; reflexivity.
Defined.

(** C4, as amended, on a query with two violations. *)
Lemma invalid_query_is_not_executed_witness :
  count_queries (trace (attempt env_invalid step_fresh question (initial w0)).1) =
  count_queries (trace (initial w0)) /\
  (is_rate_limit
     (Exception (join_lines ["Label Robot not found"; "Property name not found"]))
   = false ->
   let next :=
     error_prompt
       (join_lines ["Label Robot not found"; "Property name not found"])
       question in
   (attempt env_invalid step_fresh question (initial w0)).2 = NextIteration /\
   trace (attempt env_invalid step_fresh question (initial w0)).1 =
     trace (initial w0) ++ [EvSend prompt0] /\
   (exists evs,
      trace (attempt env_invalid step_fresh question
               (attempt env_invalid step_fresh question (initial w0)).1).1 =
      trace (attempt env_invalid step_fresh question (initial w0)).1
      ++ EvSend next :: evs) /\
   str_in (join_lines ["Label Robot not found"; "Property name not found"]) next
   = true).
Proof.
  apply (invalid_query_is_not_executed env_invalid step_fresh question
           (initial w0) prompt0 (1, [prompt0]) (mkResponse count_robots)
           (Some {[ "context" := Some count_robots ]}))
    with (q := count_robots).
  all: vm_compute; reflexivity.
Defined.

(** C4 as stated fails when the violation text contains the rate-limit
    marker: the query is rejected, the iteration goes on, and the prompt
    of the next iteration is the first prompt again, in which the
    violation text does not occur. *)
Lemma invalid_query_not_reported_counterexample :
  validate_cypher env_label count_robots tt =
    Ok (Some ["Label litellm.RateLimitError not found in the ontology"]) /\
  (attempt env_label step_fresh question (initial w0)).2 = NextIteration /\
  (exists evs,
     trace (attempt env_label step_fresh question
              (attempt env_label step_fresh question (initial w0)).1).1 =
     trace (attempt env_label step_fresh question (initial w0)).1
     ++ EvSend prompt0 :: evs) /\
  str_in (join_lines ["Label litellm.RateLimitError not found in the ontology"])
         prompt0 = false.
Proof.
  split; [reflexivity|]. split; [reflexivity|]. split; [|reflexivity].
  eexists. vm_compute. reflexivity.
Qed.

(** The machine after the first iteration of [env_robots], which recorded
    the robots query, and after the second, which timed out. *)
Abbreviation robots1 :=
  (attempt env_robots step_fresh question (initial w0)).1.
Abbreviation robots2 :=
  (attempt env_robots step_fresh question robots1).1.

(** C5 on the robots query, which finds nothing: first seen, it is
    recorded and the iteration goes on. *)
Lemma empty_result_repeated_or_retried_witness :
  last_empty_query (locals (initial w0)) <> Some count_robots /\
  (attempt env_robots step_fresh question (initial w0)).2 = NextIteration /\
  last_empty_query (locals robots1) = Some count_robots /\
  cypher_prompt (locals robots1) = empty_result_prompt question.
Proof.
  assert (Hfresh : last_empty_query (locals (@initial World w0)) <> Some count_robots)
    by discriminate.
  split; [exact Hfresh|].
  destruct (proj2 (empty_result_repeated_or_retried env_robots step_fresh
              question (initial w0) prompt0 (1, [prompt0])
              (mkResponse count_robots)
              (Some {[ "context" := Some count_robots ]})
              eq_refl eq_refl eq_refl count_robots eq_refl eq_refl
              (1, [prompt0]) [] 3%Z eq_refl eq_refl eq_refl) Hfresh)
    as (Hatt & Hlast & Hprompt & _ & _).
  rewrite Hatt. repeat split; assumption.
Defined.

(** C9 on the same script: the robots query is recorded, the second send
    times out, and the query, proposed again, is accepted with its empty
    rendering. *)
Lemma recorded_empty_query_survives_recoveries_witness :
  last_empty_query (locals robots2) = Some count_robots /\
  (attempt env_robots step_fresh question robots2).2 =
  Returned (Some "[]", Some count_robots, Some 3%Z, None).
Proof.
  pose proof (recorded_empty_query_survives_recoveries env_robots step_fresh
                question robots2 (error_prompt "timed out" question)
                (3, snd (world robots2) ++ [error_prompt "timed out" question])
                (mkResponse count_robots)
                (Some {[ "context" := Some count_robots ]})
                eq_refl eq_refl eq_refl count_robots eq_refl eq_refl
                (3, snd (world robots2) ++ [error_prompt "timed out" question])
                [] 3%Z eq_refl eq_refl
                robots1 1 "[]" eq_refl eq_refl eq_refl eq_refl)
    as (Hlast & Hatt & _).
  split; [exact Hlast|]. rewrite Hatt. reflexivity.
Defined.

(** C6 on a throttled first send. *)
Lemma rate_limit_keeps_prompt_witness :
  count_deletes (trace (attempt env_throttled step_fresh question (initial w0)).1) = 1 /\
  cypher_prompt
    (locals (attempt env_throttled step_fresh question (initial w0)).1) = prompt0 /\
  prompt_of env_throttled step_fresh question
    (cypher_prompt
       (locals (attempt env_throttled step_fresh question (initial w0)).1)) =
  Ok prompt0.
Proof.
  destruct (rate_limit_keeps_prompt env_throttled step_fresh question
              (initial w0)
              (try_body env_throttled step_fresh question (initial w0)).1
              throttled eq_refl eq_refl)
    as (Hdel & _ & Hkeep & Hsame & _).
  split; [exact Hdel|]. split; [exact Hkeep|].
  exact (proj1 (proj2 (Hsame prompt0 eq_refl))).
Defined.

(** C10 on a validation message that quotes the marker: the handler takes
    the rate-limit path. *)
Lemma rate_limit_is_a_substring_test_witness :
  is_rate_limit
    (Exception "Label litellm.RateLimitError not found in the ontology") = true /\
  trace (attempt env_label step_fresh question (initial w0)).1 =
    [EvSend prompt0; EvDeleteLast] /\
  cypher_prompt (locals (attempt env_label step_fresh question (initial w0)).1) =
    prompt0.
Proof.
  destruct (rate_limit_is_a_substring_test env_label step_fresh question
              (initial w0)
              (try_body env_label step_fresh question (initial w0)).1
              (Exception "Label litellm.RateLimitError not found in the ontology")
              eq_refl)
    as (_ & Hrate & _).
  split; [reflexivity|].
  destruct (Hrate eq_refl) as (Htrace & Hprompt & _).
  split; [exact Htrace | exact Hprompt].
Defined.

(** C8 on the people count, whose first message is made from the template,
    and on the message that follows the timed-out send of the robots
    script, which is the repair prompt and not the template again. *)
Lemma prompt_from_template_then_carried_witness :
  (exists evs, trace (run env_people step_fresh question 10 w0).1 =
               EvSend prompt0 :: evs) /\
  (exists evs, trace (attempt env_robots step_fresh question robots2).1 =
               trace robots2 ++ EvSend (error_prompt "timed out" question) :: evs).
Proof.
  destruct (prompt_from_template_then_carried env_people step_fresh question)
    as (Hfresh & _ & _).
  destruct (prompt_from_template_then_carried env_robots step_fresh question)
    as (_ & _ & Hnext).
  split.
  - apply (Hfresh w0 10%Z "Write Cypher for: " prompt0); [lia|reflexivity..].
  - destruct (Hnext robots1 robots2 eq_refl)
      as [(Hflow & _)|[(e & He & _ & _ & Hsend)|(e & He & Hrate & _)]].
    + discriminate Hflow.
    + vm_compute in He. injection He as <-. exact Hsend.
    + vm_compute in He. injection He as <-. discriminate Hrate.
Defined.

(** C7 at [retries = 0]. *)
Lemma run_without_iterations_reads_unbound_error_witness :
  (0 <= 0)%Z /\
  run env_people step_fresh question 0 w0 =
  (initial w0, Failure UnboundLocalError_error).
Proof.
  split; [lia|]. apply run_without_iterations_reads_unbound_error. lia.
Defined.

(** The same [UnboundLocalError] ends a run whose only iteration was an
    empty-result retry. *)
Example only_empty_retries_read_unbound_error :
  (run env_robots step_fresh question 1 w0).2 = Failure UnboundLocalError_error.
Proof. reflexivity. Qed.

(** With an exception caught, the failure names it. *)
Example exhausted_names_last_error :
  (run env_robots step_fresh question 2 w0).2 =
  Failure (Exception "Failed to generate Cypher query: timed out").
Proof. reflexivity. Qed.

(** The scenario of the people count, from the first prompt to the tuple. *)
Example people_are_counted :
  (run env_people step_fresh question 10 w0).2 =
  Result (Some "[[42]]", Some count_people, Some 5%Z, None).
Proof. reflexivity. Qed.

(** A display form, when the extraction gives one, is returned. *)
Example display_is_returned :
  (run env_display step_with_history question 10 w0).2 =
  Result (Some "[[1]]", Some "RETURN 1", Some 2%Z, Some "Query: RETURN 1").
Proof. reflexivity. Qed.

End OnTheScenario.

(** * Further statements on the scripted scenario *)

Section MoreOnTheScenario.

Import Scenario.

(** X2: the people count with one iteration allowed and with ten. *)
Lemma more_retries_same_result_witness :
  run env_people step_fresh question 10 w0 = run env_people step_fresh question 1 w0.
Proof.
  apply (more_retries_same_result env_people step_fresh question 1 10 w0
           (Some "[[42]]", Some count_people, Some 5%Z, None)).
  - reflexivity.
  - lia.
Defined.

(** X3 on the people count. *)
Lemma returned_query_was_validated_and_executed_witness :
  (((Some "[[42]]", Some count_people, Some 5%Z, None) : RunTuple) = no_answer /\
   exists p, last (trace (run env_people step_fresh question 10 w0).1) = Some (EvSend p)) \/
  (exists q rows time context display w1,
     ((Some "[[42]]", Some count_people, Some 5%Z, None) : RunTuple) =
       (Some context, Some q, Some time, display) /\
     validate_cypher env_people q (self_ontology step_fresh) = Ok None /\
     graph_query env_people q w1 =
       (world (run env_people step_fresh question 10 w0).1, Ok (rows, time)) /\
     stringify_falkordb_response env_people rows = Ok context /\
     last (trace (run env_people step_fresh question 10 w0).1) = Some (EvQuery q)).
Proof.
  apply (returned_query_was_validated_and_executed env_people step_fresh question
           10 w0). reflexivity.
Defined.

(** X4 on a session that is throttled all three times. *)
Lemma one_send_per_iteration_witness :
  count_sends (trace (run env_always_throttled step_fresh question 3 w0).1) = 3.
Proof.
  destruct (one_send_per_iteration env_always_throttled step_fresh question 3 w0
              prompt0 eq_refl) as (Hsends & _).
  rewrite Hsends. reflexivity.
Defined.

(** X6 on a run interrupted during its first send. *)
Lemma run_failure_cases_witness :
  (Some 10%Z = None /\ interrupted = TypeError_range) \/
  (error (locals (run env_interrupted step_fresh question 10 w0).1) = None /\
   interrupted = UnboundLocalError_error) \/
  (exists e,
     error (locals (run env_interrupted step_fresh question 10 w0).1) = Some e /\
     interrupted = Exception ("Failed to generate Cypher query: " +:+ exn_str e)) \/
  (exists e w1,
     error (locals (run env_interrupted step_fresh question 10 w0).1) = Some e /\
     is_rate_limit e = true /\
     (delete_last_message env_interrupted w1 =
        (world (run env_interrupted step_fresh question 10 w0).1, Raise interrupted) \/
      delete_last_message env_interrupted w1 =
        (world (run env_interrupted step_fresh question 10 w0).1, RaiseBase interrupted))) \/
  (exists m0,
     try_body env_interrupted step_fresh question m0 =
     ((run env_interrupted step_fresh question 10 w0).1, RaiseBase interrupted)).
Proof.
  apply (run_failure_cases env_interrupted step_fresh question (Some 10%Z) w0).
  reflexivity.
Defined.

(** X7 on the second message of the robots script. *)
Lemma run_sends_known_prompts_witness :
  first_prompt env_robots step_fresh question = Ok (empty_result_prompt question) \/
  empty_result_prompt question = empty_result_prompt question \/
  exists err, empty_result_prompt question = error_prompt err question.
Proof.
  apply (run_sends_known_prompts env_robots step_fresh question 2 w0).
  vm_compute. right. right. left. reflexivity.
Defined.

(** X8 on a query the store refuses. *)
Lemma store_error_is_reported_witness :
  (attempt env_refused step_fresh question (initial w0)).2 = NextIteration /\
  trace (attempt env_refused step_fresh question (initial w0)).1 =
    [EvSend prompt0; EvQuery "MATCH (n) RETURN m"] /\
  error (locals (attempt env_refused step_fresh question (initial w0)).1) =
    Some (mkExn "ResponseError" "errMsg: Invalid input").
Proof.
  destruct (proj1 (store_error_is_reported env_refused step_fresh question
              (initial w0) prompt0 (1, [prompt0])
              (mkResponse "MATCH (n) RETURN m")
              (Some {[ "context" := Some "MATCH (n) RETURN m" ]})
              "MATCH (n) RETURN m"
              eq_refl eq_refl eq_refl eq_refl eq_refl
              (1, [prompt0]) (mkExn "ResponseError" "errMsg: Invalid input")
              eq_refl) eq_refl eq_refl)
    as (Hnext & Htrace & _ & Herror & _).
  split; [exact Hnext|]. split; [exact Htrace | exact Herror].
Defined.

(** X9 on a validator that answers with an empty list. *)
Lemma empty_violation_list_is_a_failure_witness :
  (attempt env_silent step_fresh question (initial w0)).2 = NextIteration /\
  trace (attempt env_silent step_fresh question (initial w0)).1 = [EvSend prompt0] /\
  error (locals (attempt env_silent step_fresh question (initial w0)).1) =
    Some (Exception "").
Proof.
  destruct (empty_violation_list_is_a_failure env_silent step_fresh question
              (initial w0) prompt0 (1, [prompt0]) (mkResponse count_robots)
              (Some {[ "context" := Some count_robots ]}) count_robots
              eq_refl eq_refl eq_refl eq_refl eq_refl eq_refl)
    as (Hnext & Htrace & Herror & _).
  split; [exact Hnext|]. split; [exact Htrace | exact Herror].
Defined.

(** X10 on a step constructed without templates. *)
Lemma missing_template_is_repaired_witness :
  (run env_people step_without_templates question 1 w0).2 =
  Failure (Exception
    "Failed to generate Cypher query: 'NoneType' object has no attribute 'format'") /\
  trace (run env_people step_without_templates question 1 w0).1 = [].
Proof.
  destruct (missing_template_is_repaired env_people step_without_templates
              question w0 (or_introl (conj eq_refl eq_refl)))
    as (_ & Hrun & _).
  rewrite Hrun. split; reflexivity.
Defined.

(** X11 on a session that is throttled three times. *)
Lemma persistent_rate_limit_witness :
  trace (run env_always_throttled step_fresh question 3 w0).1 =
    [EvSend prompt0; EvDeleteLast; EvSend prompt0; EvDeleteLast;
     EvSend prompt0; EvDeleteLast] /\
  (run env_always_throttled step_fresh question 3 w0).2 =
    Failure (Exception
      "Failed to generate Cypher query: litellm.RateLimitError: Rate limit reached").
Proof.
  apply (persistent_rate_limit env_always_throttled step_fresh question 3 w0
           prompt0 throttled).
  - lia.
  - reflexivity.
  - intros w'. reflexivity.
  - intros w'. reflexivity.
  - reflexivity.
Defined.

(** X13 on the send that times out after the robots query was recorded,
    and on a send interrupted from the keyboard. *)
Lemma send_error_is_reported_witness :
  (attempt env_robots step_fresh question
     (attempt env_robots step_fresh question (initial w0)).1).2 = NextIteration /\
  str_in "timed out" (error_prompt "timed out" question) = true /\
  run env_interrupted step_fresh question 10 w0 =
    (after_send prompt0 (1, [prompt0]) (initial w0), Failure interrupted).
Proof.
  destruct (proj1 (send_error_is_reported env_robots step_fresh question
              (attempt env_robots step_fresh question (initial w0)).1
              (empty_result_prompt question)
              (2, [prompt0; empty_result_prompt question]) timed_out
              eq_refl) eq_refl eq_refl)
    as (Hnext & _ & _ & _ & Hquote).
  split; [exact Hnext|]. split; [exact Hquote|].
  exact (proj2 (send_error_is_reported env_interrupted step_fresh question
                  (initial w0) prompt0 (1, [prompt0]) interrupted eq_refl)
           eq_refl 9).
Defined.

(** With [retries = None] the [TypeError] of line 70 ends [run] before any
    call. *)
Example run_without_retries_is_a_type_error :
  run_optional env_people step_fresh question None w0 =
  (initial w0, Failure TypeError_range).
Proof. reflexivity. Qed.

End MoreOnTheScenario.
